(** * cryptopump: the MySQL persistence layer (mysql/mysql.go)

    A shallow embedding of package [mysql]: the construction of the
    connection pool, the stored-procedure calls with their row loops, the
    decoding of rows into Go values, and the lock-file probe of
    [GetThreadTransactionDistinct].

    Conventions.
    - [float64] is IEEE 754 binary64, computed with the Standard Library's
      [SpecFloat] (precision 53, emax 1024, round to nearest even).
    - [int], [int64] and [time.Duration] values are carried as [Z]; the
      package does no integer arithmetic on them.
    - A Go [error] is [option error]; [None] is [nil].
    - The process environment is a [gmap string string], the local disk a
      [gset string] of existing paths.
    - A stored procedure's answer is an input of the call: either the error
      of [Db.Query] or the rows of the result set, each cell [None] when it
      is SQL NULL.  The positional arguments of the calls are not part of
      the model.
    - A call runs in a [World] that counts the cursors obtained and
      released and the calls of [rows.Close()], and that records the
      statements sent, the log entries and the paths probed. *)

From Stdlib Require Import ZArith List String Ascii Bool Lia.
From Stdlib Require Import SpecFloat.
From stdpp Require Import base option list gmap strings.

Open Scope Z_scope.

(** ** float64 *)

(** The values of [SpecFloat]: zeros, infinities, NaN and the finite
    numbers [(-1)^s * m * 2^e].  The operations below return the canonical
    representation of their result. *)
Definition float64 : Type := spec_float.

Module F64.

Definition prec : Z := 53.
Definition emax : Z := 1024.

Definition zero : float64 := S754_zero false.

Definition mul : float64 -> float64 -> float64 := SFmul prec emax.
Definition div : float64 -> float64 -> float64 := SFdiv prec emax.

(** An untyped integer constant used as a float64 ([100], [1000]). *)
Definition of_Z (z : Z) : float64 := binary_normalize prec emax z 0 false.

(** The float64 nearest to the decimal [(-1)^neg * m / 10^k]. *)
Definition of_decimal (neg : bool) (m : Z) (k : nat) : float64 :=
  match m with
  | Zpos _ =>
      let '(q, e, l) := SFdiv_core_binary prec emax m 0 (10 ^ Z.of_nat k) 0 in
      binary_round_aux prec emax neg q e l
  | _ => S754_zero neg
  end.

(** [math.Round]: the nearest integer, halfway cases away from zero;
    zeros, infinities and NaN are returned unchanged.  A finite float
    with a non-negative exponent is an integer already. *)
Definition Round (x : float64) : float64 :=
  match x with
  | S754_finite s m (Zneg k) =>
      let q := Z.shiftr (Zpos m) (Zpos k) in
      let q' := if Z.testbit (Zpos m) (Zpos k - 1) then q + 1 else q in
      binary_normalize prec emax (cond_Zopp s q') 0 s
  | _ => x
  end.

End F64.

(** ** Decimal text *)

Module Strconv.

Definition digit (c : ascii) : option Z :=
  let n := Z.of_nat (nat_of_ascii c) in
  if (48 <=? n) && (n <=? 57) then Some (n - 48) else None.

(** Reads [digits] or [digits.digits]: the digits seen so far as an
    integer [m], and the number [k] of them after the point when the
    point has been seen ([frac = Some k]).  [None] for any other text,
    and for text without a digit. *)
Fixpoint mantissa (s : string) (m : Z) (frac : option nat) (seen : bool)
  : option (Z * nat) :=
  match s with
  | EmptyString => if seen then Some (m, default 0%nat frac) else None
  | String c rest =>
      match digit c with
      | Some d => mantissa rest (10 * m + d) (S <$> frac) true
      | None =>
          if Ascii.eqb c "."%char
          then match frac with
               | None => mantissa rest m (Some 0%nat) seen
               | Some _ => None
               end
          else None
      end
  end.

Definition decimal (s : string) : option float64 :=
  let '(neg, body) :=
    match s with
    | String c rest =>
        if Ascii.eqb c "-"%char then (true, rest)
        else if Ascii.eqb c "+"%char then (false, rest)
        else (false, s)
    | EmptyString => (false, s)
    end in
  '(m, k) ← mantissa body 0 None false;
  Some (F64.of_decimal neg m k).

End Strconv.

(** Modelled from the spec: [functions.StrToFloat64] is in package
    [functions], which is not among the sources.  The spec says that a
    textually encoded number is "parsed from text to floating point": text
    of the form [sign digits . digits] is converted to the nearest
    float64; exponents and other notations are not part of the model,
    where such text gives 0. *)
Definition StrToFloat64 (value : string) : float64 :=
  default F64.zero (Strconv.decimal value).

(** ** Errors *)

Inductive error : Type :=
| DriverError (msg : string)                (* returned by the driver or the store *)
| ScanError (column : nat) (cause : string) (* sql: Scan error on column index .. *)
| OpenError (cause : error)                 (* fmt.Errorf("sql.Open: %v", err) *)
| NotExist (path : string).                 (* os.Stat on a missing file *)

(** ** The connection pool (database/sql, os, time) *)

(** [time.Duration] counts nanoseconds. *)
Definition Duration : Type := Z.
Definition Nanosecond : Duration := 1.
Definition Second : Duration := 1000000000 * Nanosecond.

Module sql.

(** The fields of [sql.DB] that the package sets. *)
Record DB : Type := mkDB {
  dataSourceName : string;
  maxIdleCount : Z;     (* zero means defaultMaxIdleConns; negative means 0 *)
  maxOpen : Z;          (* <= 0 means unlimited *)
  maxLifetime : Duration
}.

Definition defaultMaxIdleConns : Z := 2.

Definition maxIdleConnsLocked (db : DB) : Z :=
  let n := maxIdleCount db in
  if n =? 0 then defaultMaxIdleConns
  else if n <? 0 then 0
  else n.

Definition SetMaxIdleConns (n : Z) (db : DB) : DB :=
  let db := mkDB (dataSourceName db) (if 0 <? n then n else -1)
                 (maxOpen db) (maxLifetime db) in
  if (0 <? maxOpen db) && (maxOpen db <? maxIdleConnsLocked db)
  then mkDB (dataSourceName db) (maxOpen db) (maxOpen db) (maxLifetime db)
  else db.

Definition SetMaxOpenConns (n : Z) (db : DB) : DB :=
  let db := mkDB (dataSourceName db) (maxIdleCount db)
                 (if n <? 0 then 0 else n) (maxLifetime db) in
  if (0 <? maxOpen db) && (maxOpen db <? maxIdleConnsLocked db)
  then SetMaxIdleConns n db
  else db.

Definition SetConnMaxLifetime (d : Duration) (db : DB) : DB :=
  mkDB (dataSourceName db) (maxIdleCount db) (maxOpen db)
       (if d <? 0 then 0 else d).

(** [sql.Open]: the driver checks the data-source name and the pool
    starts with every limit at its zero value. *)
Definition Open (OpenConnector : string -> option error) (dsn : string)
  : DB + error :=
  match OpenConnector dsn with
  | Some err => inr err
  | None => inl (mkDB dsn 0 0 0)
  end.

End sql.

(** A computation that may end the process instead of returning. *)
Inductive process (A : Type) : Type :=
| Running (a : A)
| Aborted                (* log.Fatalf in MustGetenv *)
| Exited (code : Z).     (* os.Exit *)
Arguments Running {A} a.
Arguments Aborted {A}.
Arguments Exited {A} code.

#[global] Instance process_ret : MRet process := fun A a => Running a.
#[global] Instance process_bind : MBind process := fun A B k p =>
  match p with
  | Running a => k a
  | Aborted => Aborted
  | Exited c => Exited c
  end.

Definition os_LookupEnv (env : gmap string string) (k : string) : option string :=
  env !! k.

Definition os_Getenv (env : gmap string string) (k : string) : string :=
  default EmptyString (env !! k).

(** Modelled from the spec: [functions.MustGetenv] is in package
    [functions], which is not among the sources.  "Any required
    configuration value that is absent is a fatal misconfiguration: the
    process must abort immediately". *)
Definition MustGetenv (env : gmap string string) (k : string) : process string :=
  match env !! k with
  | Some v => Running v
  | None => Aborted
  end.

Section Pool.

(** What the registered "mysql" driver answers to a data-source name:
    [None] when it accepts it. *)
Variable OpenConnector : string -> option error.

Definition configureConnectionPool (dbPool : sql.DB) : sql.DB :=
  let dbPool := sql.SetMaxIdleConns 5 dbPool in
  let dbPool := sql.SetMaxOpenConns 7 dbPool in
  sql.SetConnMaxLifetime 1800 dbPool.

Definition InitSocketConnectionPool (env : gmap string string)
  : process (option sql.DB * option error) :=
  dbUser ← MustGetenv env "DB_USER";
  dbPwd ← MustGetenv env "DB_PASS";
  instanceConnectionName ← MustGetenv env "INSTANCE_CONNECTION_NAME";
  dbName ← MustGetenv env "DB_NAME";
  let socketDir :=
    match os_LookupEnv env "DB_SOCKET_DIR" with
    | Some dir => dir
    | None => "/cloudsql"
    end in
  let dbURI :=
    dbUser +:+ ":" +:+ dbPwd +:+ "@unix(/" +:+ socketDir +:+ "/"
      +:+ instanceConnectionName +:+ ")/" +:+ dbName +:+ "?parseTime=true" in
  match sql.Open OpenConnector dbURI with
  | inr err => mret (None, Some (OpenError err))
  | inl dbPool => mret (Some (configureConnectionPool dbPool), None)
  end.

Definition InitTCPConnectionPool (env : gmap string string)
  : process (option sql.DB * option error) :=
  dbUser ← MustGetenv env "DB_USER";
  dbPwd ← MustGetenv env "DB_PASS";
  dbTCPHost ← MustGetenv env "DB_TCP_HOST";
  dbPort ← MustGetenv env "DB_PORT";
  dbName ← MustGetenv env "DB_NAME";
  let dbURI :=
    dbUser +:+ ":" +:+ dbPwd +:+ "@tcp(" +:+ dbTCPHost +:+ ":" +:+ dbPort
      +:+ ")/" +:+ dbName +:+ "?parseTime=true" in
  match sql.Open OpenConnector dbURI with
  | inr err => mret (None, Some (OpenError err))
  | inl dbPool => mret (Some (configureConnectionPool dbPool), None)
  end.

(** [DBInit]: on an error the deferred calls run last in, first out: the
    error is logged, then [os.Exit(1)] ends the process.  The result
    carries the logged errors. *)
Definition DBInit (env : gmap string string)
  : list error * process (option sql.DB) :=
  let r :=
    if String.eqb (os_Getenv env "DB_TCP_HOST") EmptyString
    then InitSocketConnectionPool env
    else InitTCPConnectionPool env in
  match r with
  | Running (db, None) => ([], Running db)
  | Running (_, Some err) => ([err], Exited 1)
  | Aborted => ([], Aborted)
  | Exited c => ([], Exited c)
  end.

End Pool.

(** ** The world of a procedure call *)

Record World : Type := mkWorld {
  test_v : bool;                  (* flag.Lookup("test.v") != nil *)
  more_results : bool;            (* the driver announces a further result
                                     set after the rows of a call *)
  files : gset string;            (* paths that exist on the local disk *)
  begun : nat;                    (* Db.Begin() calls, never committed *)
  sent : list string;             (* statements given to Db.Query *)
  opened : nat;                   (* row cursors obtained *)
  cursor_open : bool;             (* the cursor of this call is not closed *)
  released : nat;                 (* row cursors released *)
  close_calls : nat;              (* rows.Close() calls *)
  logged : list (string * error); (* LogEntry{..}.Do(): operation, error *)
  probed : list string            (* paths given to os.Stat *)
}.

Definition Db_Begin (w : World) : World :=
  mkWorld (test_v w) (more_results w) (files w) (S (begun w)) (sent w) (opened w)
          (cursor_open w) (released w) (close_calls w) (logged w) (probed w).

Definition send (stmt : string) (w : World) : World :=
  mkWorld (test_v w) (more_results w) (files w) (begun w) (sent w ++ [stmt]) (opened w)
          (cursor_open w) (released w) (close_calls w) (logged w) (probed w).

Definition open_cursor (w : World) : World :=
  mkWorld (test_v w) (more_results w) (files w) (begun w) (sent w) (S (opened w))
          true (released w) (close_calls w) (logged w) (probed w).

(** Releasing is idempotent: a closed cursor stays closed. *)
Definition release (w : World) : World :=
  mkWorld (test_v w) (more_results w) (files w) (begun w) (sent w) (opened w)
          false (if cursor_open w then S (released w) else released w)
          (close_calls w) (logged w) (probed w).

Definition count_Close (w : World) : World :=
  mkWorld (test_v w) (more_results w) (files w) (begun w) (sent w) (opened w)
          (cursor_open w) (released w) (S (close_calls w)) (logged w) (probed w).

Definition log_entry (fn : string) (err : error) (w : World) : World :=
  mkWorld (test_v w) (more_results w) (files w) (begun w) (sent w) (opened w)
          (cursor_open w) (released w) (close_calls w)
          (logged w ++ [(fn, err)]) (probed w).

Definition probe (path : string) (w : World) : World :=
  mkWorld (test_v w) (more_results w) (files w) (begun w) (sent w) (opened w)
          (cursor_open w) (released w) (close_calls w) (logged w)
          (probed w ++ [path]).

(** ** Function bodies with deferred calls *)

Record Frame : Type := mkFrame {
  world : World;
  deferred : list (World -> World)   (* the last deferred call first *)
}.

Definition Go (A : Type) : Type := Frame -> A * Frame.

#[global] Instance Go_ret : MRet Go := fun A a fr => (a, fr).
#[global] Instance Go_bind : MBind Go := fun A B k c fr =>
  k (c fr).1 (c fr).2.

Definition effect (f : World -> World) : Go unit :=
  fun fr => (tt, mkFrame (f (world fr)) (deferred fr)).

Definition read {A} (f : World -> A) : Go A :=
  fun fr => (f (world fr), fr).

Definition defer (f : World -> World) : Go unit :=
  fun fr => (tt, mkFrame (world fr) (f :: deferred fr)).

(** A call runs the body, then the deferred calls, last in first out. *)
Definition func {A} (body : Go A) (w : World) : A * World :=
  let fr := (body (mkFrame w [])).2 in
  ((body (mkFrame w [])).1, foldl (fun w d => d w) (world fr) (deferred fr)).

(** ** database/sql: queries, cursors, Scan *)

(** [if flag.Lookup("test.v") != nil { sessionData.Db.Begin() }] *)
Definition test_Begin : Go unit :=
  effect (fun w => if test_v w then Db_Begin w else w).

(** [Db.Query]: the statement is sent; the store's answer is either an
    error, and then there is no cursor, or an open cursor on its rows. *)
Definition Db_Query {R} (stmt : string) (answer : list R + error)
  : Go (list R + error) :=
  effect (send stmt);;
  match answer with
  | inl rows => effect open_cursor;; mret (inl rows)
  | inr err => mret (inr err)
  end.

(** [rows.Next()] finding no further row returns false, and closes the
    cursor by itself unless the driver announces a further result set, as
    it does after the rows of a stored procedure. *)
Definition end_of_rows (w : World) : World :=
  if more_results w then w else release w.

Definition rows_Next_false : Go unit := effect end_of_rows.

(** [rows.Close()] *)
Definition rows_Close (w : World) : World := release (count_Close w).

Definition LogEntry_Do (fn : string) (err : error) : Go unit :=
  effect (log_entry fn err).

(** [os.Stat(path)]: nil exactly when the path exists. *)
Definition os_Stat (path : string) : Go (option error) :=
  effect (probe path);;
  read (fun w => if bool_decide (path ∈ files w) then None
                 else Some (NotExist path)).

(** [convertAssign] into a destination that cannot hold NULL: the cell's
    value is stored, and NULL is an error that leaves the destination as
    it was.  The cells arrive in the type of their destination; the
    conversions between types are not part of the model. *)
Definition convertAssign {T} (kind : string) (src : option T) (dest : T)
  : T + string :=
  match src with
  | Some v => inl v
  | None => inr ("converting NULL to " +:+ kind +:+ " is unsupported")
  end.

(** A [*bool] destination goes through [driver.Bool.ConvertValue]. *)
Definition convertAssign_bool (src : option bool) (dest : bool) : bool + string :=
  match src with
  | Some v => inl v
  | None => inr "sql/driver: couldn't convert <nil> (<nil>) into type bool"
  end.

Record NullFloat64 : Type := mkNullFloat64 { Float64 : float64; Valid : bool }.

Definition NullFloat64_zero : NullFloat64 := mkNullFloat64 F64.zero false.

(** The Scan method of [sql.NullFloat64]: NULL is stored as an invalid 0. *)
Definition NullFloat64_Scan (src : option float64) (n : NullFloat64)
  : NullFloat64 + string :=
  match src with
  | None => inl (mkNullFloat64 F64.zero false)
  | Some v => inl (mkNullFloat64 v true)
  end.

(** [rows.Scan(dest...)] assigns the columns from left to right and stops
    at the first one that fails; the destinations after it are not
    touched. *)
Definition Scan1 {C T} (conv : C -> T -> T + string) (src : C) (dest : T)
  : T * option error :=
  match conv src dest with
  | inl v => (v, None)
  | inr cause => (dest, Some (ScanError 0 cause))
  end.

Definition ScanNext {C D C' T} (column : nat)
    (before : C -> D -> D * option error) (conv : C' -> T -> T + string)
    (src : C * C') (dest : D * T) : (D * T) * option error :=
  match before src.1 dest.1 with
  | (d, Some err) => ((d, dest.2), Some err)
  | (d, None) =>
      match conv src.2 dest.2 with
      | inl v => ((d, v), None)
      | inr cause => ((d, dest.2), Some (ScanError column cause))
      end
  end.

Definition Scan2 {C1 T1 C2 T2} (c1 : C1 -> T1 -> T1 + string)
    (c2 : C2 -> T2 -> T2 + string) :=
  ScanNext 1 (Scan1 c1) c2.

Definition Scan3 {C1 T1 C2 T2 C3 T3} (c1 : C1 -> T1 -> T1 + string)
    (c2 : C2 -> T2 -> T2 + string) (c3 : C3 -> T3 -> T3 + string) :=
  ScanNext 2 (Scan2 c1 c2) c3.

Definition Scan4 {C1 T1 C2 T2 C3 T3 C4 T4} (c1 : C1 -> T1 -> T1 + string)
    (c2 : C2 -> T2 -> T2 + string) (c3 : C3 -> T3 -> T3 + string)
    (c4 : C4 -> T4 -> T4 + string) :=
  ScanNext 3 (Scan3 c1 c2 c3) c4.

Definition Scan5 {C1 T1 C2 T2 C3 T3 C4 T4 C5 T5} (c1 : C1 -> T1 -> T1 + string)
    (c2 : C2 -> T2 -> T2 + string) (c3 : C3 -> T3 -> T3 + string)
    (c4 : C4 -> T4 -> T4 + string) (c5 : C5 -> T5 -> T5 + string) :=
  ScanNext 4 (Scan4 c1 c2 c3 c4) c5.

(** [for rows.Next() { err = rows.Scan(dest...) }] *)
Fixpoint for_rows_Scan {R D} (Scan : R -> D -> D * option error)
    (rows : list R) (dest : D) (err : option error) : Go (D * option error) :=
  match rows with
  | [] => rows_Next_false;; mret (dest, err)
  | r :: rest => for_rows_Scan Scan rest (Scan r dest).1 (Scan r dest).2
  end.

(** ** types.Order *)

(** The fields of [types.Order] that this package reads or writes. *)
Record Order : Type := mkOrder {
  ClientOrderID : string;
  CumulativeQuoteQuantity : float64;
  ExecutedQuantity : float64;
  OrderID : Z;
  Price : float64;
  Side : string;
  Status : string;
  Symbol : string;
  TransactTime : Z
}.

(** [types.Order{}] *)
Definition Order_zero : Order :=
  mkOrder "" F64.zero F64.zero 0 F64.zero "" "" "" 0.

(** ** Procedures without a result set *)

(** The body shared by the writing operations: the call, the log entry on
    an error, and the deferred close of the cursor. *)
Definition exec {R} (stmt fn : string) (answer : list R + error)
  : World -> option error * World :=
  func (
    test_Begin;;
    q ← Db_Query stmt answer;
    match q with
    | inr err => LogEntry_Do fn err;; mret (Some err)
    | inl rows => defer rows_Close;; mret None
    end).

Definition SaveOrder {R} :=
  exec (R:=R) "call cryptopump.SaveOrder(?,?,?,?,?,?,?,?,?,?,?,?)" "SaveOrder".
Definition UpdateOrder {R} :=
  exec (R:=R) "call cryptopump.UpdateOrder(?,?,?,?,?)" "UpdateOrder".
Definition UpdateSession {R} :=
  exec (R:=R) "call cryptopump.UpdateSession(?,?,?,?,?,?,?)" "UpdateSession".
Definition UpdateGlobal {R} :=
  exec (R:=R) "call cryptopump.UpdateGlobal(?,?,?,?)" "UpdateGlobal".
Definition SaveGlobal {R} :=
  exec (R:=R) "call cryptopump.SaveGlobal(?,?,?,?)" "SaveGlobal".
Definition SaveSession {R} :=
  exec (R:=R) "call cryptopump.SaveSession(?,?,?,?,?,?,?)" "SaveSession".
Definition DeleteSession {R} :=
  exec (R:=R) "call cryptopump.DeleteSession(?)" "DeleteSession".
Definition SaveThreadTransaction {R} :=
  exec (R:=R) "call cryptopump.SaveThreadTransaction(?,?,?,?,?,?)"
       "SaveThreadTransaction".
Definition DeleteThreadTransactionByOrderID {R} :=
  exec (R:=R) "call cryptopump.DeleteThreadTransactionByOrderID(?)"
       "DeleteThreadTransactionByOrderID".

(** ** Procedures read through a row loop *)

(** The loop of [GetSessionStatus].  [status] is declared inside the loop
    body, so every row starts from [false]; [inl] is the [return] taken
    inside the loop, [inr] the end of the loop. *)
Fixpoint GetSessionStatus_rows (rows : list (option string * option bool))
    (threadID : string) (err : option error)
  : Go (string * option error + string) :=
  match rows with
  | [] => rows_Next_false;; mret (inr threadID)
  | r :: rest =>
      let scanned :=
        Scan2 (convertAssign "string") convertAssign_bool r (threadID, false) in
      let threadID := scanned.1.1 in
      let status := scanned.1.2 in
      let err := scanned.2 in
      if status then mret (inl (threadID, err))
      else GetSessionStatus_rows rest threadID err
  end.

Definition GetSessionStatus (answer : list (option string * option bool) + error)
  : World -> (string * option error) * World :=
  func (
    test_Begin;;
    q ← Db_Query "call cryptopump.GetSessionStatus()" answer;
    match q with
    | inr err => LogEntry_Do "GetSessionStatus" err;; mret ("", Some err)
    | inl rows =>
        l ← GetSessionStatus_rows rows "" None;
        match l with
        | inl result => mret result
        | inr threadID => defer rows_Close;; mret (threadID, None)
        end
    end).

Definition GetThreadTransactionCount (answer : list (option Z) + error)
  : World -> (Z * option error) * World :=
  func (
    test_Begin;;
    q ← Db_Query "call cryptopump.GetThreadTransactionCount(?)" answer;
    match q with
    | inr err => LogEntry_Do "GetThreadTransactionCount" err;; mret (0, Some err)
    | inl rows =>
        '(count, err) ← for_rows_Scan (Scan1 (convertAssign "int")) rows 0 None;
        defer rows_Close;;
        mret (count, err)
    end).

Definition GetLastOrderTransactionPrice (answer : list (option float64) + error)
  : World -> (float64 * option error) * World :=
  func (
    test_Begin;;
    q ← Db_Query "call cryptopump.GetLastOrderTransactionPrice(?,?)" answer;
    match q with
    | inr err =>
        LogEntry_Do "GetLastOrderTransactionPrice" err;; mret (F64.zero, Some err)
    | inl rows =>
        '(price, err) ←
          for_rows_Scan (Scan1 (convertAssign "float64")) rows F64.zero None;
        defer rows_Close;;
        mret (price, err)
    end).

Definition GetLastOrderTransactionSide (answer : list (option string) + error)
  : World -> (string * option error) * World :=
  func (
    test_Begin;;
    q ← Db_Query "call cryptopump.GetLastOrderTransactionSide(?)" answer;
    match q with
    | inr err =>
        LogEntry_Do "GetLastOrderTransactionSide" err;; mret ("", Some err)
    | inl rows =>
        '(side, err) ←
          for_rows_Scan (Scan1 (convertAssign "string")) rows "" None;
        defer rows_Close;;
        mret (side, err)
    end).

Definition GetOrderTransactionSideLastTwo
    (answer : list (option string * option string) + error)
  : World -> (string * string * option error) * World :=
  func (
    test_Begin;;
    q ← Db_Query "call cryptopump.GetOrderTransactionSideLastTwo(?)" answer;
    match q with
    | inr err =>
        LogEntry_Do "GetOrderTransactionSideLastTwo" err;; mret ("", "", Some err)
    | inl rows =>
        '(side1, side2, err) ←
          for_rows_Scan (Scan2 (convertAssign "string") (convertAssign "string"))
                        rows ("", "") None;
        defer rows_Close;;
        mret (side1, side2, err)
    end).

Definition GetOrderSymbol (answer : list (option string) + error)
  : World -> (string * option error) * World :=
  func (
    test_Begin;;
    q ← Db_Query "call cryptopump.GetOrderSymbol(?)" answer;
    match q with
    | inr err => LogEntry_Do "GetOrderSymbol" err;; mret ("", Some err)
    | inl rows =>
        '(symbol, err) ←
          for_rows_Scan (Scan1 (convertAssign "string")) rows "" None;
        defer rows_Close;;
        mret (symbol, err)
    end).

(** The loop of [GetThreadTransactionDistinct]: a row whose lock file
    cannot be found ends the loop ([break]); a row whose lock file exists
    empties both identifiers.  The [err] of the [os.Stat] test shadows the
    function's [err], which stays the one of [rows.Scan]. *)
Fixpoint GetThreadTransactionDistinct_rows
    (rows : list (option string * option string))
    (threadID threadIDSession : string) (err : option error)
  : Go (string * string * option error) :=
  match rows with
  | [] => rows_Next_false;; mret (threadID, threadIDSession, err)
  | r :: rest =>
      let scanned :=
        Scan2 (convertAssign "string") (convertAssign "string") r
              (threadID, threadIDSession) in
      let threadID := scanned.1.1 in
      let threadIDSession := scanned.1.2 in
      let err := scanned.2 in
      st ← os_Stat (threadID +:+ ".lock");
      match st with
      | Some _ => mret (threadID, threadIDSession, err)
      | None => GetThreadTransactionDistinct_rows rest "" "" err
      end
  end.

Definition GetThreadTransactionDistinct
    (answer : list (option string * option string) + error)
  : World -> (string * string * option error) * World :=
  func (
    test_Begin;;
    q ← Db_Query "call cryptopump.GetThreadTransactionDistinct()" answer;
    match q with
    | inr err =>
        LogEntry_Do "GetThreadTransactionDistinct" err;; mret ("", "", Some err)
    | inl rows =>
        result ← GetThreadTransactionDistinct_rows rows "" "" None;
        defer rows_Close;;
        mret result
    end).

(** [rows.Scan(&order.OrderID, &order.Symbol)] *)
Definition Scan_pending (src : option Z * option string) (order : Order)
  : Order * option error :=
  let scanned :=
    Scan2 (convertAssign "int64") (convertAssign "string") src
          (OrderID order, Symbol order) in
  let '(orderID, symbol) := scanned.1 in
  (mkOrder (ClientOrderID order) (CumulativeQuoteQuantity order)
           (ExecutedQuantity order) orderID (Price order) (Side order)
           (Status order) symbol (TransactTime order),
   scanned.2).

Definition GetOrderTransactionPending
    (answer : list (option Z * option string) + error)
  : World -> (Order * option error) * World :=
  func (
    test_Begin;;
    q ← Db_Query "call cryptopump.GetOrderTransactionPending(?)" answer;
    match q with
    | inr err =>
        LogEntry_Do "GetOrderTransactionPending" err;; mret (Order_zero, Some err)
    | inl rows =>
        '(order, err) ← for_rows_Scan Scan_pending rows Order_zero None;
        defer rows_Close;;
        mret (order, err)
    end).

(** [rows.Scan(&order.CumulativeQuoteQuantity, &order.OrderID, &order.Price,
    &order.ExecutedQuantity, &order.TransactTime)] *)
Definition Scan_transaction
    (src : option float64 * option Z * option float64 * option float64 * option Z)
    (order : Order) : Order * option error :=
  let scanned :=
    Scan5 (convertAssign "float64") (convertAssign "int64")
          (convertAssign "float64") (convertAssign "float64")
          (convertAssign "int64") src
          (CumulativeQuoteQuantity order, OrderID order, Price order,
           ExecutedQuantity order, TransactTime order) in
  let '(cumulativeQuoteQuantity, orderID, price, executedQuantity, transactTime) :=
    scanned.1 in
  (mkOrder (ClientOrderID order) cumulativeQuoteQuantity executedQuantity
           orderID price (Side order) (Status order) (Symbol order) transactTime,
   scanned.2).

Definition GetThreadTransactionByPrice
    (answer : list (option float64 * option Z * option float64
                    * option float64 * option Z) + error)
  : World -> (Order * option error) * World :=
  func (
    test_Begin;;
    q ← Db_Query "call cryptopump.GetThreadTransactionByPrice(?,?)" answer;
    match q with
    | inr err =>
        LogEntry_Do "GetThreadTransactionByPrice" err;; mret (Order_zero, Some err)
    | inl rows =>
        '(order, err) ← for_rows_Scan Scan_transaction rows Order_zero None;
        defer rows_Close;;
        mret (order, err)
    end).

Definition GetThreadTransactionByPriceHigher
    (answer : list (option float64 * option Z * option float64
                    * option float64 * option Z) + error)
  : World -> (Order * option error) * World :=
  func (
    test_Begin;;
    q ← Db_Query "call cryptopump.GetThreadTransactionByPriceHigher(?,?)" answer;
    match q with
    | inr err =>
        LogEntry_Do "GetThreadTransactionByPriceHigher" err;;
        mret (Order_zero, Some err)
    | inl rows =>
        '(order, err) ← for_rows_Scan Scan_transaction rows Order_zero None;
        defer rows_Close;;
        mret (order, err)
    end).

Definition GetThreadLastTransaction
    (answer : list (option float64 * option Z * option float64
                    * option float64 * option Z) + error)
  : World -> (Order * option error) * World :=
  func (
    test_Begin;;
    q ← Db_Query "call cryptopump.GetThreadLastTransaction(?)" answer;
    match q with
    | inr err =>
        LogEntry_Do "GetThreadLastTransaction" err;; mret (Order_zero, Some err)
    | inl rows =>
        '(order, err) ← for_rows_Scan Scan_transaction rows Order_zero None;
        defer rows_Close;;
        mret (order, err)
    end).

(** [rows.Scan(&order.OrderID, &order.Price, &order.ExecutedQuantity,
    &order.CumulativeQuoteQuantity, &order.TransactTime)] *)
Definition Scan_order
    (src : option Z * option float64 * option float64 * option float64 * option Z)
    (order : Order) : Order * option error :=
  let scanned :=
    Scan5 (convertAssign "int64") (convertAssign "float64")
          (convertAssign "float64") (convertAssign "float64")
          (convertAssign "int64") src
          (OrderID order, Price order, ExecutedQuantity order,
           CumulativeQuoteQuantity order, TransactTime order) in
  let '(orderID, price, executedQuantity, cumulativeQuoteQuantity, transactTime) :=
    scanned.1 in
  (mkOrder (ClientOrderID order) cumulativeQuoteQuantity executedQuantity
           orderID price (Side order) (Status order) (Symbol order) transactTime,
   scanned.2).

Definition GetOrderByOrderID
    (answer : list (option Z * option float64 * option float64
                    * option float64 * option Z) + error)
  : World -> (Order * option error) * World :=
  func (
    test_Begin;;
    q ← Db_Query "call cryptopump.GetOrderByOrderID(?,?)" answer;
    match q with
    | inr err => LogEntry_Do "GetOrderByOrderID" err;; mret (Order_zero, Some err)
    | inl rows =>
        '(order, err) ← for_rows_Scan Scan_order rows Order_zero None;
        defer rows_Close;;
        mret (order, err)
    end).

Definition GetThreadTransactiontUpmarketPriceCount
    (answer : list (option Z) + error)
  : World -> (Z * option error) * World :=
  func (
    test_Begin;;
    q ← Db_Query "call cryptopump.GetThreadTransactiontUpmarketPriceCount(?,?)"
                 answer;
    match q with
    | inr err =>
        LogEntry_Do "GetThreadTransactiontUpmarketPriceCount" err;;
        mret (0, Some err)
    | inl rows =>
        '(count, err) ← for_rows_Scan (Scan1 (convertAssign "int")) rows 0 None;
        defer rows_Close;;
        mret (count, err)
    end).

Definition GetOrderTransactionCount (answer : list (option float64) + error)
  : World -> (float64 * option error) * World :=
  func (
    test_Begin;;
    q ← Db_Query "call cryptopump.GetOrderTransactionCount(?,?,?)" answer;
    match q with
    | inr err =>
        LogEntry_Do "GetOrderTransactionCount" err;; mret (F64.zero, Some err)
    | inl rows =>
        '(count, err) ←
          for_rows_Scan (Scan1 (convertAssign "float64")) rows F64.zero None;
        defer rows_Close;;
        mret (count, err)
    end).

(** What one iteration of the loop of [GetThreadTransactionByThreadID]
    stores in [order]: the four scan targets are declared inside the loop
    body, so every row starts from their zero values, also when
    [rows.Scan] fails. *)
Definition decode_transaction
    (r : option Z * option string * option string * option string)
    (order : Order) : Order * option error :=
  let scanned :=
    Scan4 (convertAssign "int64") (convertAssign "string")
          (convertAssign "string") (convertAssign "string") r
          (0, "", "", "") in
  let '(orderID, cumulativeQuoteQty, price, executedQuantity) := scanned.1 in
  (mkOrder (ClientOrderID order)
           (F64.div (F64.Round (F64.mul (StrToFloat64 cumulativeQuoteQty)
                                        (F64.of_Z 100)))
                    (F64.of_Z 100))
           (StrToFloat64 executedQuantity)
           orderID
           (F64.div (F64.Round (F64.mul (StrToFloat64 price) (F64.of_Z 1000)))
                    (F64.of_Z 1000))
           (Side order) (Status order) (Symbol order) (TransactTime order),
   scanned.2).

Fixpoint GetThreadTransactionByThreadID_rows
    (rows : list (option Z * option string * option string * option string))
    (order : Order) (orders : list Order) (err : option error)
  : Go (list Order * option error) :=
  match rows with
  | [] => rows_Next_false;; mret (orders, err)
  | r :: rest =>
      let decoded := decode_transaction r order in
      let order := decoded.1 in
      let err := decoded.2 in
      GetThreadTransactionByThreadID_rows rest order (orders ++ [order]) err
  end.

Definition GetThreadTransactionByThreadID
    (answer : list (option Z * option string * option string * option string)
              + error)
  : World -> (list Order * option error) * World :=
  func (
    test_Begin;;
    let order := Order_zero in
    q ← Db_Query "call cryptopump.GetThreadTransactionByThreadID(?)" answer;
    match q with
    | inr err =>
        LogEntry_Do "GetThreadTransactionByThreadID" err;; mret ([], Some err)
    | inl rows =>
        '(orders, err) ← GetThreadTransactionByThreadID_rows rows order [] None;
        defer rows_Close;;
        mret (orders, err)
    end).

Definition GetProfitByThreadID
    (answer : list (option float64 * option float64) + error)
  : World -> (float64 * float64 * option error) * World :=
  func (
    let fiatNullFloat64 := NullFloat64_zero in
    let percentageNullFloat64 := NullFloat64_zero in
    test_Begin;;
    q ← Db_Query "call cryptopump.GetProfitByThreadID(?)" answer;
    match q with
    | inr err =>
        LogEntry_Do "GetProfitByThreadID" err;;
        mret (Float64 fiatNullFloat64, Float64 percentageNullFloat64, Some err)
    | inl rows =>
        '(fiatNullFloat64, percentageNullFloat64, err) ←
          for_rows_Scan (Scan2 NullFloat64_Scan NullFloat64_Scan) rows
                        (fiatNullFloat64, percentageNullFloat64) None;
        defer rows_Close;;
        mret (Float64 fiatNullFloat64,
              F64.mul (Float64 percentageNullFloat64) (F64.of_Z 100), err)
    end).

(** [GetProfit] declares three [sql.NullFloat64] variables but scans into
    its plain [float64] results. *)
Definition GetProfit
    (answer : list (option float64 * option float64 * option float64) + error)
  : World -> (float64 * float64 * float64 * option error) * World :=
  func (
    let profitNullFloat64 := NullFloat64_zero in
    let profitNetNullFloat64 := NullFloat64_zero in
    let percentageNullFloat64 := NullFloat64_zero in
    test_Begin;;
    q ← Db_Query "call cryptopump.GetProfit()" answer;
    match q with
    | inr err =>
        LogEntry_Do "GetProfit" err;;
        mret (Float64 profitNullFloat64, Float64 profitNetNullFloat64,
              Float64 percentageNullFloat64, Some err)
    | inl rows =>
        '(profit, profitNet, percentage, err) ←
          for_rows_Scan (Scan3 (convertAssign "float64") (convertAssign "float64")
                               (convertAssign "float64"))
                        rows (F64.zero, F64.zero, F64.zero) None;
        defer rows_Close;;
        mret (profit, profitNet, F64.mul percentage (F64.of_Z 100), err)
    end).

Definition GetGlobal
    (answer : list (option float64 * option float64 * option float64 * option Z)
              + error)
  : World -> (float64 * float64 * float64 * Z * option error) * World :=
  func (
    test_Begin;;
    q ← Db_Query "call cryptopump.GetGlobal()" answer;
    match q with
    | inr err =>
        LogEntry_Do "GetGlobal" err;;
        mret (F64.zero, F64.zero, F64.zero, 0, Some err)
    | inl rows =>
        '(profit, profitNet, profitPct, transactTime, err) ←
          for_rows_Scan (Scan4 (convertAssign "float64") (convertAssign "float64")
                               (convertAssign "float64") (convertAssign "int64"))
                        rows (F64.zero, F64.zero, F64.zero, 0) None;
        defer rows_Close;;
        mret (profit, profitNet, profitPct, transactTime, err)
    end).

Definition GetThreadCount (answer : list (option Z) + error)
  : World -> (Z * option error) * World :=
  func (
    test_Begin;;
    q ← Db_Query "call cryptopump.GetThreadCount()" answer;
    match q with
    | inr err => LogEntry_Do "GetThreadCount" err;; mret (0, Some err)
    | inl rows =>
        '(count, err) ← for_rows_Scan (Scan1 (convertAssign "int")) rows 0 None;
        defer rows_Close;;
        mret (count, err)
    end).

Definition GetThreadAmount (answer : list (option float64) + error)
  : World -> (float64 * option error) * World :=
  func (
    let amountNullFloat64 := NullFloat64_zero in
    test_Begin;;
    q ← Db_Query "call cryptopump.GetThreadTransactionAmount()" answer;
    match q with
    | inr err =>
        LogEntry_Do "GetThreadAmount" err;;
        mret (Float64 amountNullFloat64, Some err)
    | inl rows =>
        '(amountNullFloat64, err) ←
          for_rows_Scan (Scan1 NullFloat64_Scan) rows amountNullFloat64 None;
        defer rows_Close;;
        mret (F64.div (F64.Round (F64.mul (Float64 amountNullFloat64)
                                          (F64.of_Z 100)))
                      (F64.of_Z 100), err)
    end).

(** * The vocabulary of the properties *)

(** The destinations and the error after
    [for rows.Next() { err = rows.Scan(..) }] over [rows]. *)
Definition scan_all {R D} (Scan : R -> D -> D * option error) (rows : list R)
    (start : D * option error) : D * option error :=
  foldl (fun acc r => Scan r acc.1) start rows.

(** No cursor was obtained and no release was attempted. *)
Definition no_cursor (w w' : World) : Prop :=
  opened w' = opened w /\ released w' = released w
  /\ close_calls w' = close_calls w.

(** One cursor was obtained, [Close] was called once, and the cursor was
    released once. *)
Definition cursor_released_once (w w' : World) : Prop :=
  opened w' = S (opened w) /\ released w' = S (released w)
  /\ close_calls w' = S (close_calls w) /\ cursor_open w' = false.

(** One cursor was obtained and it is still open. *)
Definition cursor_left_open (w w' : World) : Prop :=
  opened w' = S (opened w) /\ released w' = released w
  /\ close_calls w' = close_calls w /\ cursor_open w' = true.

(** A row makes [GetSessionStatus] return from inside its loop when both
    columns are scanned and the status flag is true. *)
Definition flagged (r : option string * option bool) : bool :=
  match r with
  | (Some _, Some true) => true
  | _ => false
  end.

(** The order that a row leaves in the result, and the error of its scan.
    Every field that an iteration does not assign keeps its zero value
    through the whole loop. *)
Definition decoded (r : option Z * option string * option string * option string)
  : Order := (decode_transaction r Order_zero).1.

Definition scan_error
    (r : option Z * option string * option string * option string)
  : option error := (decode_transaction r Order_zero).2.

(** The error that the loop leaves: the one of the last row. *)
Definition last_error
    (rows : list (option Z * option string * option string * option string))
    (err : option error) : option error :=
  match last rows with
  | Some r => scan_error r
  | None => err
  end.

(** A driver that accepts every data-source name. *)
Definition accept_all (dsn : string) : option error := None.

(** The environment of the application container in docker-compose. *)
Definition env_compose : gmap string string :=
  list_to_map [("DB_USER", "root"); ("DB_PASS", "password");
               ("DB_TCP_HOST", "cryptopump_db"); ("DB_PORT", "3306");
               ("DB_NAME", "cryptopump")].

(** An environment for the socket transport, with no [DB_TCP_HOST] and no
    [DB_SOCKET_DIR]. *)
Definition env_socket : gmap string string :=
  list_to_map [("DB_USER", "user"); ("DB_PASS", "pass");
               ("INSTANCE_CONNECTION_NAME", "instance"); ("DB_NAME", "dbname")].

(** A row of the result set with both identifiers present. *)
Definition present (r : string * string) : option string * option string :=
  (Some r.1, Some r.2).

Definition lock_file (r : string * string) : string := r.1 +:+ ".lock".

(** The probes of the given paths, in order. *)
Definition probes (paths : list string) (w : World) : World :=
  foldl (fun w path => probe path w) w paths.

(** A disk on which only [T1.lock] exists. *)
Definition world_T1 : World :=
  mkWorld false true {[ "T1.lock" ]} 0 [] 0 false 0 0 [] [].

(** [x] rounded to a number of decimal places, the way the package does
    it: scaled by the power of ten, rounded to an integer, scaled back. *)
Definition round_places (places : Z) (x : float64) : float64 :=
  F64.div (F64.Round (F64.mul x (F64.of_Z (10 ^ places))))
          (F64.of_Z (10 ^ places)).

(** A row of the result set with every cell present. *)
Definition text_row (r : Z * string * string * string)
  : option Z * option string * option string * option string :=
  let '(orderID, cumulativeQuoteQty, price, executedQuantity) := r in
  (Some orderID, Some cumulativeQuoteQty, Some price, Some executedQuantity).

(** The order that the caller receives for such a row. *)
Definition order_of_text (r : Z * string * string * string) : Order :=
  let '(orderID, cumulativeQuoteQty, price, executedQuantity) := r in
  mkOrder "" (round_places 2 (StrToFloat64 cumulativeQuoteQty))
          (StrToFloat64 executedQuantity) orderID
          (round_places 3 (StrToFloat64 price)) "" "" "" 0.

(** A world in which nothing has happened yet. *)
Definition world_init : World := mkWorld false false ∅ 0 [] 0 false 0 0 [] [].

(** Two rows that decode and one whose price is NULL. *)
Definition row_7 : option Z * option string * option string * option string :=
  (Some 7, Some "12.34567", Some "100.12345", Some "0.5").
Definition row_8_NULL : option Z * option string * option string * option string :=
  (Some 8, Some "1.5", None, Some "2").
Definition row_9 : option Z * option string * option string * option string :=
  (Some 9, Some "3", Some "4", Some "5").

(** In test mode a call begins one transaction, otherwise none; nothing
    commits it or rolls it back. *)
Definition begins (w w' : World) : Prop :=
  begun w' = (if test_v w then S (begun w) else begun w).

(** One statement was given to [Db.Query], and no second one. *)
Definition one_statement (w w' : World) : Prop :=
  exists stmt : string, sent w' = sent w ++ [stmt].

(** The call whose [Db.Query] failed with [err]: one statement, one log
    entry that carries the error, no cursor, no probe of the disk. *)
Definition call_failed (err : error) (w w' : World) : Prop :=
  one_statement w w'
  /\ (exists fn : string, logged w' = logged w ++ [(fn, err)])
  /\ no_cursor w w' /\ begins w w' /\ probed w' = probed w.

(** The call whose [Db.Query] gave a cursor: one statement, no log entry,
    the cursor released once. *)
Definition call_read (w w' : World) : Prop :=
  one_statement w w' /\ logged w' = logged w
  /\ cursor_released_once w w' /\ begins w w'.

(** What a writing operation does on either answer of the store: the
    error of [Db.Query] comes back as it is, and a cursor comes back as a
    nil error with the cursor released; its rows are never read. *)
Definition writes_as_contracted {R}
    (op : list R + error -> World -> option error * World) : Prop :=
  forall (answer : list R + error) (w : World),
    match answer with
    | inr err =>
        (op answer w).1 = Some err /\ call_failed err w (op answer w).2
    | inl _ =>
        (op answer w).1 = None /\ call_read w (op answer w).2
        /\ probed (op answer w).2 = probed w
    end.

(** A reading operation whose [Db.Query] failed with [err]: its results
    have the value [zero] and its error is [err] itself. *)
Definition returns_query_error {V}
    (op : World -> (V * option error) * World) (zero : V) (err : error)
  : Prop :=
  forall w : World,
    (op w).1 = (zero, Some err) /\ call_failed err w (op w).2.

(** A reading operation on a cursor, whatever its rows are. *)
Definition reads_as_contracted {A} (op : World -> A * World) : Prop :=
  forall w : World, call_read w (op w).2 /\ probed (op w).2 = probed w.

(** The thread that the loop of [GetSessionStatus] holds after rows
    without a flag: the one of the last row whose first column is not
    NULL, and [start] when there is none. *)
Definition last_threadID (start : string)
    (rows : list (option string * option bool)) : string :=
  foldl (fun threadID r => default threadID r.1) start rows.

(** A world in test mode in which nothing has happened yet. *)
Definition world_test : World := mkWorld true true ∅ 0 [] 0 false 0 0 [] [].

(** A one-column reading operation hands over its last row: the value of
    a last row that is not NULL with a nil error, whatever came before;
    and for a NULL last row the value that the rows before it gave,
    with the error of that scan. *)
Definition last_row_wins {V}
    (op : list (option V) + error -> World -> (V * option error) * World)
    (kind : string) : Prop :=
  forall (rows : list (option V)) (v : V) (w : World),
    (op (inl (rows ++ [Some v])) w).1 = (v, None)
    /\ (op (inl (rows ++ [None])) w).1
       = ((op (inl rows) w).1.1,
          Some (ScanError 0 ("converting NULL to " +:+ kind
                               +:+ " is unsupported"))).

(** [prev] with the cumulative quote quantity and the order id replaced. *)
Definition with_quote_and_id (prev : Order) (c : float64) (id : Z) : Order :=
  mkOrder (ClientOrderID prev) c (ExecutedQuantity prev) id (Price prev)
          (Side prev) (Status prev) (Symbol prev) (TransactTime prev).

(** [prev] with the order id replaced. *)
Definition with_id (prev : Order) (id : Z) : Order :=
  mkOrder (ClientOrderID prev) (CumulativeQuoteQuantity prev)
          (ExecutedQuantity prev) id (Price prev) (Side prev) (Status prev)
          (Symbol prev) (TransactTime prev).

(** The five columns of a transaction or an order, as the store gave
    them. *)
Definition holds_columns (order : Order) (c : float64) (id : Z)
    (p e : float64) (t : Z) : Prop :=
  CumulativeQuoteQuantity order = c /\ OrderID order = id /\ Price order = p
  /\ ExecutedQuantity order = e /\ TransactTime order = t.

(** An environment for the socket transport with an empty [DB_TCP_HOST]
    and a socket directory written without a leading slash. *)
Definition env_socket_dir : gmap string string :=
  list_to_map [("DB_USER", "user"); ("DB_PASS", "pass");
               ("INSTANCE_CONNECTION_NAME", "instance"); ("DB_NAME", "dbname");
               ("DB_TCP_HOST", ""); ("DB_SOCKET_DIR", "cloudsql")].

(** * Properties *)

(** ** Running a function body *)

Lemma for_rows_Scan_run {R D} (Scan : R -> D -> D * option error) rows dest err fr :
  for_rows_Scan Scan rows dest err fr
  = (scan_all Scan rows (dest, err),
     mkFrame (end_of_rows (world fr)) (deferred fr)).
Proof.
  revert dest err. induction rows as [|r rows IH]; intros dest err.
  - reflexivity.
  - simpl. rewrite IH. unfold scan_all. simpl. by destruct (Scan r dest).
Qed.

Lemma scan_all_last {R D} (Scan : R -> D -> D * option error) rows r start :
  scan_all Scan (rows ++ [r]) start = Scan r (scan_all Scan rows start).1.
Proof. unfold scan_all. by rewrite foldl_app. Qed.

Ltac go_step := cbn [fst snd world deferred foldl].

(** The cases of the two flags of the world that a call reads. *)
Ltac by_flags w :=
  destruct (test_v w); cbv [end_of_rows rows_Close]; cbn;
  destruct (more_results w); done.

Ltac go_run :=
  cbv [func mbind Go_bind mret Go_ret Db_Query test_Begin effect defer read
       LogEntry_Do rows_Next_false os_Stat];
  go_step; rewrite ?for_rows_Scan_run; go_step.

(** ** Row cursors *)

Lemma exec_no_cursor {R} stmt fn err w :
  no_cursor w (exec (R:=R) stmt fn (inr err) w).2.
Proof. unfold exec. go_run. by destruct (test_v w). Qed.

Lemma exec_releases_cursor {R} stmt fn (rows : list R) w :
  cursor_released_once w (exec stmt fn (inl rows) w).2.
Proof. unfold exec. go_run. by destruct (test_v w). Qed.

Lemma GetSessionStatus_rows_run rows threadID err fr :
  let out := GetSessionStatus_rows rows threadID err fr in
  if existsb flagged rows
  then (exists result, out.1 = inl result) /\ out.2 = fr
  else (exists threadID', out.1 = inr threadID')
       /\ out.2 = mkFrame (end_of_rows (world fr)) (deferred fr).
Proof.
  revert threadID err. induction rows as [|r rows IH]; intros threadID err.
  - simpl. eauto.
  - destruct r as [[t|] [[|]|]]; simpl; eauto; apply IH.
Qed.

(** [GetSessionStatus] releases its cursor once when its loop runs to the
    end, and leaves it open when a row is flagged. *)
Lemma GetSessionStatus_cursor rows w :
  let out := GetSessionStatus (inl rows) w in
  if existsb flagged rows
  then cursor_left_open w out.2
  else cursor_released_once w out.2.
Proof.
  unfold GetSessionStatus. go_run.
  match goal with
  | |- context [GetSessionStatus_rows rows ?t ?e ?fr] =>
      pose proof (GetSessionStatus_rows_run rows t e fr) as H;
      destruct (GetSessionStatus_rows rows t e fr) as [l fr']
  end.
  simpl in H. destruct (existsb flagged rows).
  - destruct H as [[res ->] ->]. go_step. by_flags w.
  - destruct H as [[t ->] ->]. go_step. by_flags w.
Qed.

Lemma GetSessionStatus_no_cursor err w :
  no_cursor w (GetSessionStatus (inr err) w).2.
Proof. unfold GetSessionStatus. go_run. by destruct (test_v w). Qed.

(** C1.  [GetSessionStatus] returns from inside its row loop when a row's
    status flag is true, before [defer rows.Close()] has been reached: the
    call obtains one cursor, never calls [Close] and returns with the
    cursor still open.  Shown for every answer whose first row has a true
    status flag. *)
Theorem GetSessionStatus_return_in_loop_leaves_cursor_open
    (w : World) (threadID : string)
    (rest : list (option string * option bool)) :
  let out := GetSessionStatus (inl ((Some threadID, Some true) :: rest)) w in
  out.1 = (threadID, None) /\ cursor_left_open w out.2.
Proof.
  unfold GetSessionStatus. go_run. simpl. by destruct (test_v w).
Qed.

(** The operations that read with [for rows.Next() { err = rows.Scan(..) }]
    obtain no cursor on an error and release their cursor once otherwise. *)
Ltac cursor_solve op :=
  match goal with |- match ?answer with _ => _ end => destruct answer end;
  unfold op; go_run; cbv [end_of_rows];
  repeat (case_match; cbn in * |-);
  cbv [no_cursor cursor_released_once rows_Close]; cbn;
  repeat case_match; auto; congruence.

Lemma GetThreadTransactionCount_cursor answer w :
  match answer with
  | inl _ => cursor_released_once w (GetThreadTransactionCount answer w).2
  | inr _ => no_cursor w (GetThreadTransactionCount answer w).2
  end.
Proof. cursor_solve GetThreadTransactionCount. Qed.

Lemma GetLastOrderTransactionPrice_cursor answer w :
  match answer with
  | inl _ => cursor_released_once w (GetLastOrderTransactionPrice answer w).2
  | inr _ => no_cursor w (GetLastOrderTransactionPrice answer w).2
  end.
Proof. cursor_solve GetLastOrderTransactionPrice. Qed.

Lemma GetLastOrderTransactionSide_cursor answer w :
  match answer with
  | inl _ => cursor_released_once w (GetLastOrderTransactionSide answer w).2
  | inr _ => no_cursor w (GetLastOrderTransactionSide answer w).2
  end.
Proof. cursor_solve GetLastOrderTransactionSide. Qed.

Lemma GetOrderTransactionSideLastTwo_cursor answer w :
  match answer with
  | inl _ => cursor_released_once w (GetOrderTransactionSideLastTwo answer w).2
  | inr _ => no_cursor w (GetOrderTransactionSideLastTwo answer w).2
  end.
Proof. cursor_solve GetOrderTransactionSideLastTwo. Qed.

Lemma GetOrderSymbol_cursor answer w :
  match answer with
  | inl _ => cursor_released_once w (GetOrderSymbol answer w).2
  | inr _ => no_cursor w (GetOrderSymbol answer w).2
  end.
Proof. cursor_solve GetOrderSymbol. Qed.

Lemma GetOrderTransactionPending_cursor answer w :
  match answer with
  | inl _ => cursor_released_once w (GetOrderTransactionPending answer w).2
  | inr _ => no_cursor w (GetOrderTransactionPending answer w).2
  end.
Proof. cursor_solve GetOrderTransactionPending. Qed.

Lemma GetThreadTransactionByPrice_cursor answer w :
  match answer with
  | inl _ => cursor_released_once w (GetThreadTransactionByPrice answer w).2
  | inr _ => no_cursor w (GetThreadTransactionByPrice answer w).2
  end.
Proof. cursor_solve GetThreadTransactionByPrice. Qed.

Lemma GetThreadTransactionByPriceHigher_cursor answer w :
  match answer with
  | inl _ => cursor_released_once w (GetThreadTransactionByPriceHigher answer w).2
  | inr _ => no_cursor w (GetThreadTransactionByPriceHigher answer w).2
  end.
Proof. cursor_solve GetThreadTransactionByPriceHigher. Qed.

Lemma GetThreadLastTransaction_cursor answer w :
  match answer with
  | inl _ => cursor_released_once w (GetThreadLastTransaction answer w).2
  | inr _ => no_cursor w (GetThreadLastTransaction answer w).2
  end.
Proof. cursor_solve GetThreadLastTransaction. Qed.

Lemma GetOrderByOrderID_cursor answer w :
  match answer with
  | inl _ => cursor_released_once w (GetOrderByOrderID answer w).2
  | inr _ => no_cursor w (GetOrderByOrderID answer w).2
  end.
Proof. cursor_solve GetOrderByOrderID. Qed.

Lemma GetThreadTransactiontUpmarketPriceCount_cursor answer w :
  match answer with
  | inl _ => cursor_released_once w (GetThreadTransactiontUpmarketPriceCount answer w).2
  | inr _ => no_cursor w (GetThreadTransactiontUpmarketPriceCount answer w).2
  end.
Proof. cursor_solve GetThreadTransactiontUpmarketPriceCount. Qed.

Lemma GetOrderTransactionCount_cursor answer w :
  match answer with
  | inl _ => cursor_released_once w (GetOrderTransactionCount answer w).2
  | inr _ => no_cursor w (GetOrderTransactionCount answer w).2
  end.
Proof. cursor_solve GetOrderTransactionCount. Qed.

Lemma GetProfitByThreadID_cursor answer w :
  match answer with
  | inl _ => cursor_released_once w (GetProfitByThreadID answer w).2
  | inr _ => no_cursor w (GetProfitByThreadID answer w).2
  end.
Proof. cursor_solve GetProfitByThreadID. Qed.

Lemma GetProfit_cursor answer w :
  match answer with
  | inl _ => cursor_released_once w (GetProfit answer w).2
  | inr _ => no_cursor w (GetProfit answer w).2
  end.
Proof. cursor_solve GetProfit. Qed.

Lemma GetGlobal_cursor answer w :
  match answer with
  | inl _ => cursor_released_once w (GetGlobal answer w).2
  | inr _ => no_cursor w (GetGlobal answer w).2
  end.
Proof. cursor_solve GetGlobal. Qed.

Lemma GetThreadCount_cursor answer w :
  match answer with
  | inl _ => cursor_released_once w (GetThreadCount answer w).2
  | inr _ => no_cursor w (GetThreadCount answer w).2
  end.
Proof. cursor_solve GetThreadCount. Qed.

Lemma GetThreadAmount_cursor answer w :
  match answer with
  | inl _ => cursor_released_once w (GetThreadAmount answer w).2
  | inr _ => no_cursor w (GetThreadAmount answer w).2
  end.
Proof. cursor_solve GetThreadAmount. Qed.

(** ** The loop of [GetThreadTransactionByThreadID] *)

Lemma decode_transaction_after r r' :
  decode_transaction r (decoded r') = (decoded r, scan_error r).
Proof.
  unfold decoded, scan_error, decode_transaction.
  by repeat match goal with
       | |- context [let '(_, _) := ?x in _] => destruct x
       end.
Qed.

Lemma decode_transaction_first r :
  decode_transaction r Order_zero = (decoded r, scan_error r).
Proof. unfold decoded, scan_error. by destruct (decode_transaction _ _). Qed.

Lemma last_error_cons r rows err :
  last_error (r :: rows) err = last_error rows (scan_error r).
Proof.
  unfold last_error. destruct rows as [|p rows]; [reflexivity|].
  rewrite last_cons_cons. destruct (last (p :: rows)) eqn:E; [done|].
  by apply last_None in E.
Qed.

Lemma GetThreadTransactionByThreadID_rows_run rows order orders err fr :
  (order = Order_zero \/ exists r', order = decoded r') ->
  GetThreadTransactionByThreadID_rows rows order orders err fr
  = ((orders ++ (decoded <$> rows), last_error rows err),
     mkFrame (end_of_rows (world fr)) (deferred fr)).
Proof.
  revert order orders err.
  induction rows as [|r rows IH]; intros order orders err Horder.
  - cbn [GetThreadTransactionByThreadID_rows]. go_run.
    by rewrite fmap_nil, app_nil_r.
  - cbn [GetThreadTransactionByThreadID_rows].
    assert (decode_transaction r order = (decoded r, scan_error r)) as ->.
    { destruct Horder as [->|[r' ->]];
        [apply decode_transaction_first | apply decode_transaction_after]. }
    cbn [fst snd]. rewrite IH by eauto.
    by rewrite last_error_cons, fmap_cons, <- app_assoc.
Qed.

Lemma GetThreadTransactionByThreadID_run rows w :
  (GetThreadTransactionByThreadID (inl rows) w).1
  = (decoded <$> rows, last_error rows None).
Proof.
  unfold GetThreadTransactionByThreadID. go_run.
  rewrite GetThreadTransactionByThreadID_rows_run by auto. by go_step.
Qed.

Lemma GetThreadTransactionByThreadID_cursor answer w :
  match answer with
  | inl _ => cursor_released_once w (GetThreadTransactionByThreadID answer w).2
  | inr _ => no_cursor w (GetThreadTransactionByThreadID answer w).2
  end.
Proof.
  destruct answer; unfold GetThreadTransactionByThreadID; go_run;
    rewrite ?GetThreadTransactionByThreadID_rows_run by auto; go_step;
    by_flags w.
Qed.

(** ** The connection pool *)

Lemma configureConnectionPool_fresh dsn :
  configureConnectionPool (sql.mkDB dsn 0 0 0) = sql.mkDB dsn 5 7 1800.
Proof. reflexivity. Qed.

Ltac pool_run H :=
  cbv [InitTCPConnectionPool InitSocketConnectionPool MustGetenv os_LookupEnv
       mbind process_bind mret process_ret sql.Open] in H;
  repeat (case_match; try discriminate);
  simplify_eq.

(** C2.  A pool built by [InitTCPConnectionPool] or by
    [InitSocketConnectionPool] keeps at most 5 idle and 7 open connections,
    and [SetConnMaxLifetime(1800)] sets the maximum connection lifetime to
    1800 nanoseconds, the unit of [time.Duration], which is not the 1800
    seconds that the comment on that line announces. *)
Theorem pool_lifetime_is_1800_nanoseconds
    (OpenConnector : string -> option error) (env : gmap string string)
    (db : sql.DB) :
  InitTCPConnectionPool OpenConnector env = Running (Some db, None)
  \/ InitSocketConnectionPool OpenConnector env = Running (Some db, None) ->
  sql.maxIdleConnsLocked db = 5 /\ sql.maxOpen db = 7
  /\ sql.maxLifetime db = 1800 * Nanosecond
  /\ sql.maxLifetime db <> 1800 * Second.
Proof.
  intros [H|H]; pool_run H; rewrite configureConnectionPool_fresh;
    by repeat split.
Qed.

Lemma pool_lifetime_is_1800_nanoseconds_witness :
  InitTCPConnectionPool accept_all env_compose
  = Running (Some (sql.mkDB
       "root:password@tcp(cryptopump_db:3306)/cryptopump?parseTime=true"
       5 7 1800), None)
  /\ sql.maxLifetime (sql.mkDB
       "root:password@tcp(cryptopump_db:3306)/cryptopump?parseTime=true"
       5 7 1800) = 1800 * Nanosecond
  /\ sql.maxLifetime (sql.mkDB
       "root:password@tcp(cryptopump_db:3306)/cryptopump?parseTime=true"
       5 7 1800) <> 1800 * Second.
Proof.
  split; [reflexivity|].
  apply (pool_lifetime_is_1800_nanoseconds accept_all env_compose).
  left. reflexivity.
Defined.

(** ** NULL aggregates *)

Lemma GetProfitByThreadID_NULL_is_zero w fiat :
  (GetProfitByThreadID (inl [(fiat, None)]) w).1
  = (default F64.zero fiat, F64.zero, None)
  /\ (GetProfitByThreadID (inl [(None, None)]) w).1
     = (F64.zero, F64.zero, None).
Proof. split; [by destruct fiat | reflexivity]. Qed.

Lemma GetThreadAmount_NULL_is_zero w :
  (GetThreadAmount (inl [None]) w).1 = (F64.zero, None).
Proof. reflexivity. Qed.

(** C3.  [GetProfit] scans into its plain [float64] results, not into the
    [sql.NullFloat64] variables that it declares: a row whose first scalar
    is NULL leaves every result at 0.0 and makes the call return the error
    of [rows.Scan]. *)
Theorem GetProfit_NULL_is_a_scan_error
    (w : World) (profitNet percentage : option float64) :
  (GetProfit (inl [(None, profitNet, percentage)]) w).1
  = (F64.zero, F64.zero, F64.zero,
     Some (ScanError 0 "converting NULL to float64 is unsupported")).
Proof. reflexivity. Qed.

(** ** The data-source name of the socket transport *)

(** C4, as stated, fails: with the default socket directory the path
    inside [unix(...)] starts with two slashes. *)
Lemma InitSocketConnectionPool_dsn_counterexample :
  exists db : sql.DB,
    InitSocketConnectionPool accept_all env_socket = Running (Some db, None)
    /\ sql.dataSourceName db
       = "user:pass@unix(//cloudsql/instance)/dbname?parseTime=true"
    /\ sql.dataSourceName db
       <> "user:pass@unix(/cloudsql/instance)/dbname?parseTime=true".
Proof.
  eexists. split; [reflexivity|]. split; [reflexivity|discriminate].
Qed.

(** C4, amended.  When [DB_TCP_HOST] and [DB_SOCKET_DIR] are unset,
    [DBInit] takes the socket transport and [InitSocketConnectionPool]
    gives the driver the data-source name
    [user:pass@unix(//cloudsql/instance)/dbname?parseTime=true]: inside
    [unix(...)] one slash, the default socket directory [/cloudsql], one
    slash and the instance-connection identifier. *)
Theorem InitSocketConnectionPool_default_dsn
    (OpenConnector : string -> option error) (env : gmap string string)
    (dbUser dbPwd instanceConnectionName dbName : string) :
  env !! "DB_USER" = Some dbUser ->
  env !! "DB_PASS" = Some dbPwd ->
  env !! "INSTANCE_CONNECTION_NAME" = Some instanceConnectionName ->
  env !! "DB_NAME" = Some dbName ->
  env !! "DB_TCP_HOST" = None ->
  env !! "DB_SOCKET_DIR" = None ->
  let dsn := dbUser +:+ ":" +:+ dbPwd +:+ "@unix(//cloudsql/"
               +:+ instanceConnectionName +:+ ")/" +:+ dbName
               +:+ "?parseTime=true" in
  InitSocketConnectionPool OpenConnector env
  = match OpenConnector dsn with
    | Some err => Running (None, Some (OpenError err))
    | None => Running (Some (sql.mkDB dsn 5 7 1800), None)
    end
  /\ (DBInit OpenConnector env).2
     = match OpenConnector dsn with
       | Some err => Exited 1
       | None => Running (Some (sql.mkDB dsn 5 7 1800))
       end.
Proof.
  intros Huser Hpwd Hinst Hname Htcp Hdir dsn.
  assert (InitSocketConnectionPool OpenConnector env
          = match OpenConnector dsn with
            | Some err => Running (None, Some (OpenError err))
            | None => Running (Some (sql.mkDB dsn 5 7 1800), None)
            end) as Hinit.
  { cbv [InitSocketConnectionPool MustGetenv os_LookupEnv mbind process_bind
         mret process_ret sql.Open].
    rewrite Huser, Hpwd, Hinst, Hname, Hdir.
    change (dbUser +:+ ":" +:+ dbPwd +:+ "@unix(/" +:+ "/cloudsql" +:+ "/"
              +:+ instanceConnectionName +:+ ")/" +:+ dbName
              +:+ "?parseTime=true") with dsn.
    by destruct (OpenConnector dsn). }
  split; [exact Hinit|].
  unfold DBInit, os_Getenv. rewrite Htcp. cbn [default String.eqb].
  rewrite Hinit. by destruct (OpenConnector dsn).
Qed.

Lemma InitSocketConnectionPool_default_dsn_witness :
  InitSocketConnectionPool accept_all env_socket
  = Running (Some (sql.mkDB
       "user:pass@unix(//cloudsql/instance)/dbname?parseTime=true" 5 7 1800),
     None).
Proof.
  apply (InitSocketConnectionPool_default_dsn accept_all env_socket
           "user" "pass" "instance" "dbname"); reflexivity.
Defined.

(** ** The lock-file probe of [GetThreadTransactionDistinct] *)

Lemma probes_fields paths w :
  files (probes paths w) = files w
  /\ probed (probes paths w) = probed w ++ paths
  /\ opened (probes paths w) = opened w
  /\ released (probes paths w) = released w
  /\ cursor_open (probes paths w) = cursor_open w
  /\ close_calls (probes paths w) = close_calls w.
Proof.
  revert w. induction paths as [|path paths IH]; intros w; simpl.
  - by rewrite app_nil_r.
  - destruct (IH (probe path w)) as (-> & -> & -> & -> & -> & ->).
    simpl. by rewrite <- app_assoc.
Qed.

(** The loop stops at the first row without a lock file and leaves the
    rows after it unread. *)
Lemma GetThreadTransactionDistinct_rows_stop pre t s post t0 s0 err fr :
  Forall (fun r => lock_file r ∈ files (world fr)) pre ->
  lock_file (t, s) ∉ files (world fr) ->
  GetThreadTransactionDistinct_rows (present <$> pre ++ (t, s) :: post)
                                    t0 s0 err fr
  = ((t, s, None),
     mkFrame (probes (lock_file <$> pre ++ [(t, s)]) (world fr)) (deferred fr)).
Proof.
  revert t0 s0 err fr.
  induction pre as [|[t1 s1] pre IH]; intros t0 s0 err fr Hpre Hlast.
  - cbn [app fmap list_fmap GetThreadTransactionDistinct_rows]. go_run.
    cbn [files probe]. unfold lock_file in Hlast. cbn [fst] in Hlast.
    by rewrite bool_decide_false.
  - apply Forall_cons in Hpre as [Hlock Hpre].
    cbn [app fmap list_fmap GetThreadTransactionDistinct_rows]. go_run.
    cbn [files probe]. unfold lock_file in Hlock. cbn [fst] in Hlock.
    rewrite bool_decide_true by done.
    by rewrite (IH "" "" None) by done.
Qed.

(** When every row has its lock file the loop reads them all and ends with
    both identifiers empty. *)
Lemma GetThreadTransactionDistinct_rows_all rows fr :
  Forall (fun r => lock_file r ∈ files (world fr)) rows ->
  GetThreadTransactionDistinct_rows (present <$> rows) "" "" None fr
  = (("", "", None),
     mkFrame (end_of_rows (probes (lock_file <$> rows) (world fr)))
             (deferred fr)).
Proof.
  revert fr. induction rows as [|[t1 s1] rows IH]; intros fr Hrows.
  - reflexivity.
  - apply Forall_cons in Hrows as [Hlock Hrows].
    cbn [fmap list_fmap GetThreadTransactionDistinct_rows]. go_run.
    cbn [files probe]. unfold lock_file in Hlock. cbn [fst] in Hlock.
    rewrite bool_decide_true by done.
    by rewrite IH by done.
Qed.

Lemma before_loop_files stmt w :
  files (open_cursor (send stmt (if test_v w then Db_Begin w else w))) = files w.
Proof. by destruct (test_v w). Qed.

Lemma before_loop_probed stmt w :
  probed (open_cursor (send stmt (if test_v w then Db_Begin w else w)))
  = probed w.
Proof. by destruct (test_v w). Qed.

(** C5.  [GetThreadTransactionDistinct] stops at the first row whose lock
    file does not exist and returns that row's pair, having probed the lock
    files of the rows up to it and of no row after it; when every row has
    its lock file, or there is no row, it returns two empty strings; for
    the rows (T1,S1), (T2,S2) with T1.lock present and T2.lock absent the
    result is (T2,S2). *)
Theorem GetThreadTransactionDistinct_first_without_lock (w : World) :
  (forall (pre : list (string * string)) (t s : string)
          (post : list (string * string)),
      Forall (fun r => lock_file r ∈ files w) pre ->
      lock_file (t, s) ∉ files w ->
      (GetThreadTransactionDistinct
         (inl (present <$> pre ++ (t, s) :: post)) w).1 = (t, s, None)
      /\ probed (GetThreadTransactionDistinct
                   (inl (present <$> pre ++ (t, s) :: post)) w).2
         = probed w ++ (lock_file <$> pre ++ [(t, s)]))
  /\ (forall rows : list (string * string),
      Forall (fun r => lock_file r ∈ files w) rows ->
      (GetThreadTransactionDistinct (inl (present <$> rows)) w).1
      = ("", "", None))
  /\ (forall T1 S1 T2 S2 : string,
      T1 +:+ ".lock" ∈ files w ->
      T2 +:+ ".lock" ∉ files w ->
      (GetThreadTransactionDistinct
         (inl [(Some T1, Some S1); (Some T2, Some S2)]) w).1
      = (T2, S2, None)).
Proof.
  assert (forall pre t s post,
      Forall (fun r => lock_file r ∈ files w) pre ->
      lock_file (t, s) ∉ files w ->
      (GetThreadTransactionDistinct
         (inl (present <$> pre ++ (t, s) :: post)) w).1 = (t, s, None)
      /\ probed (GetThreadTransactionDistinct
                   (inl (present <$> pre ++ (t, s) :: post)) w).2
         = probed w ++ (lock_file <$> pre ++ [(t, s)])) as Hstop.
  { intros pre t s post Hpre Hlast.
    unfold GetThreadTransactionDistinct. go_run.
    rewrite GetThreadTransactionDistinct_rows_stop
      by (cbn [world]; by rewrite before_loop_files).
    go_step. split; [done|]. cbn [rows_Close release count_Close probed].
    destruct (probes_fields (lock_file <$> pre ++ [(t, s)])
                (open_cursor (send "call cryptopump.GetThreadTransactionDistinct()"
                   (if test_v w then Db_Begin w else w))))
      as (_ & -> & _).
    by rewrite before_loop_probed. }
  split; [exact Hstop|]. split.
  - intros rows Hrows. unfold GetThreadTransactionDistinct. go_run.
    rewrite GetThreadTransactionDistinct_rows_all
      by (cbn [world]; by rewrite before_loop_files).
    by go_step.
  - intros T1 S1 T2 S2 H1 H2.
    apply (Hstop [(T1, S1)] T2 S2 []); [by apply Forall_singleton | done].
Qed.

Lemma GetThreadTransactionDistinct_first_without_lock_witness :
  (GetThreadTransactionDistinct
     (inl [(Some "T1", Some "S1"); (Some "T2", Some "S2")]) world_T1).1
  = ("T2", "S2", None).
Proof.
  apply (proj2 (proj2 (GetThreadTransactionDistinct_first_without_lock world_T1))).
  - vm_compute. reflexivity.
  - vm_compute. discriminate.
Defined.

Lemma GetThreadTransactionDistinct_rows_cursor rows t s err fr :
  let out := GetThreadTransactionDistinct_rows rows t s err fr in
  deferred out.2 = deferred fr
  /\ opened (world out.2) = opened (world fr)
  /\ close_calls (world out.2) = close_calls (world fr)
  /\ released (rows_Close (world out.2)) = released (rows_Close (world fr)).
Proof.
  revert t s err fr. induction rows as [|r rows IH]; intros t s err fr.
  - cbn [GetThreadTransactionDistinct_rows]. go_run.
    cbv [end_of_rows].
    by destruct (more_results (world fr)), (cursor_open (world fr)).
  - cbn [GetThreadTransactionDistinct_rows]. go_run.
    case_match; go_step; [done|].
    match goal with
    | |- context [GetThreadTransactionDistinct_rows rows ?t' ?s' ?e' ?fr'] =>
        destruct (IH t' s' e' fr') as (-> & -> & -> & ->)
    end.
    done.
Qed.

Lemma GetThreadTransactionDistinct_cursor answer w :
  match answer with
  | inl _ => cursor_released_once w (GetThreadTransactionDistinct answer w).2
  | inr _ => no_cursor w (GetThreadTransactionDistinct answer w).2
  end.
Proof.
  destruct answer as [rows|err]; unfold GetThreadTransactionDistinct; go_run.
  - match goal with
    | |- context [GetThreadTransactionDistinct_rows rows ?t ?s ?e ?fr] =>
        destruct (GetThreadTransactionDistinct_rows_cursor rows t s e fr)
          as (Hd & Ho & Hc & Hr);
        destruct (GetThreadTransactionDistinct_rows rows t s e fr) as [res fr']
    end.
    cbn [fst snd world deferred] in *. rewrite Hd. go_step.
    unfold cursor_released_once. rewrite Hr.
    cbn [rows_Close release count_Close opened close_calls cursor_open].
    rewrite Ho, Hc. by destruct (test_v w).
  - by destruct (test_v w).
Qed.

(** ** Decoding the rows of [GetThreadTransactionByThreadID] *)

Lemma last_error_text rows : last_error (text_row <$> rows) None = None.
Proof.
  unfold last_error. rewrite fmap_last.
  by destruct (last rows) as [[[[? ?] ?] ?]|].
Qed.

(** C6.  For rows whose cells are all present, [GetThreadTransactionByThreadID]
    hands over, row by row, the cumulative quote quantity parsed and rounded
    to 2 decimal places, the price parsed and rounded to 3 decimal places,
    and the executed quantity parsed and not rounded; "12.34567" rounded to
    2 places is the float64 12.35 and "100.12345" rounded to 3 places is
    the float64 100.123. *)
Theorem GetThreadTransactionByThreadID_rounding
    (w : World) (rows : list (Z * string * string * string)) :
  (GetThreadTransactionByThreadID (inl (text_row <$> rows)) w).1
  = (order_of_text <$> rows, None)
  /\ round_places 2 (StrToFloat64 "12.34567") = F64.of_decimal false 1235 2
  /\ round_places 3 (StrToFloat64 "100.12345") = F64.of_decimal false 100123 3
  /\ (GetThreadTransactionByThreadID
        (inl [(Some 7, Some "12.34567", Some "100.12345", Some "0.00123456")])
        w).1
     = ([mkOrder "" (F64.of_decimal false 1235 2)
                 (F64.of_decimal false 123456 8) 7
                 (F64.of_decimal false 100123 3) "" "" "" 0], None).
Proof.
  split; [|split; [|split]].
  - rewrite GetThreadTransactionByThreadID_run, last_error_text.
    f_equal. rewrite <- list_fmap_compose. apply list_fmap_ext.
    by intros _ [[[? ?] ?] ?] _.
  - vm_compute. reflexivity.
  - vm_compute. reflexivity.
  - rewrite GetThreadTransactionByThreadID_run. vm_compute. reflexivity.
Qed.

(** ** Percentages *)

(** C7, as stated, fails on its example: for the stored fraction 0.0532
    the float64 product with 100 is 5.319999999999999, one unit in the
    last place below the float64 5.32. *)
Lemma GetProfit_percentage_counterexample :
  (GetProfit (inl [(Some (F64.of_Z 1), Some (F64.of_Z 1),
                    Some (F64.of_decimal false 532 4))]) world_init).1
  = (F64.of_Z 1, F64.of_Z 1, S754_finite false 5989787504402759 (-50), None)
  /\ F64.of_decimal false 532 2 = S754_finite false 5989787504402760 (-50)
  /\ S754_finite false 5989787504402759 (-50) <> F64.of_decimal false 532 2.
Proof.
  split; [vm_compute; reflexivity|].
  split; [vm_compute; reflexivity|]. vm_compute. discriminate.
Qed.

(** C7, amended.  [GetProfit] and [GetProfitByThreadID] return the float64
    product of the stored fraction and 100, rounded to nearest as every
    float64 product is, and return their other scalars as the store gave
    them; the rows before the last one do not matter.  For the stored
    fraction 0.0532 the value returned is 5.319999999999999. *)
Theorem percentage_is_float64_product
    (w : World)
    (rows : list (option float64 * option float64 * option float64))
    (rows' : list (option float64 * option float64))
    (profit profitNet p : float64) (fiat : option float64) :
  (GetProfit (inl (rows ++ [(Some profit, Some profitNet, Some p)])) w).1
  = (profit, profitNet, F64.mul p (F64.of_Z 100), None)
  /\ (GetProfitByThreadID (inl (rows' ++ [(fiat, Some p)])) w).1
     = (default F64.zero fiat, F64.mul p (F64.of_Z 100), None)
  /\ F64.mul (F64.of_decimal false 532 4) (F64.of_Z 100)
     = F64.of_decimal false 5319999999999999 15.
Proof.
  split; [|split].
  - unfold GetProfit. go_run. rewrite scan_all_last.
    by destruct (scan_all _ _ _) as [[[? ?] ?] ?].
  - unfold GetProfitByThreadID. go_run. rewrite scan_all_last.
    destruct (scan_all _ _ _) as [[? ?] ?]. by destruct fiat.
  - vm_compute. reflexivity.
Qed.

(** ** Empty result sets *)

(** C8.  When the invocation succeeds and returns no row, every operation
    that reads one row of scalars returns the zero value of its results
    and a nil error. *)
Theorem no_rows_gives_zero_value_and_nil (w : World) :
  (GetThreadTransactionCount (inl []) w).1 = (0, None)
  /\ (GetLastOrderTransactionPrice (inl []) w).1 = (F64.zero, None)
  /\ (GetLastOrderTransactionSide (inl []) w).1 = ("", None)
  /\ (GetOrderTransactionSideLastTwo (inl []) w).1 = ("", "", None)
  /\ (GetOrderSymbol (inl []) w).1 = ("", None)
  /\ (GetSessionStatus (inl []) w).1 = ("", None)
  /\ (GetThreadTransactionDistinct (inl []) w).1 = ("", "", None)
  /\ (GetOrderTransactionPending (inl []) w).1 = (Order_zero, None)
  /\ (GetThreadTransactionByPrice (inl []) w).1 = (Order_zero, None)
  /\ (GetThreadTransactionByPriceHigher (inl []) w).1 = (Order_zero, None)
  /\ (GetThreadLastTransaction (inl []) w).1 = (Order_zero, None)
  /\ (GetOrderByOrderID (inl []) w).1 = (Order_zero, None)
  /\ (GetThreadTransactiontUpmarketPriceCount (inl []) w).1 = (0, None)
  /\ (GetOrderTransactionCount (inl []) w).1 = (F64.zero, None)
  /\ (GetProfitByThreadID (inl []) w).1 = (F64.zero, F64.zero, None)
  /\ (GetProfit (inl []) w).1 = (F64.zero, F64.zero, F64.zero, None)
  /\ (GetGlobal (inl []) w).1 = (F64.zero, F64.zero, F64.zero, 0, None)
  /\ (GetThreadCount (inl []) w).1 = (0, None)
  /\ (GetThreadAmount (inl []) w).1 = (F64.zero, None).
Proof. repeat split. Qed.

(** ** Partial results of [GetThreadTransactionByThreadID] *)

(** C9.  In [GetThreadTransactionByThreadID] the orders appended for the
    rows before any row are still in the returned sequence, unchanged and
    in order, whatever happens at that row and after it; every row adds
    one order; and the error returned is the scan error of the last row
    read, each iteration overwriting the one before.  A row with a NULL
    price after a good row returns the good row's order with the scan
    error; a good row after them returns all three orders and a nil
    error. *)
Theorem GetThreadTransactionByThreadID_partial_results
    (w : World)
    (pre : list (option Z * option string * option string * option string))
    (r : option Z * option string * option string * option string)
    (post : list (option Z * option string * option string * option string)) :
  take (length pre)
       (GetThreadTransactionByThreadID (inl (pre ++ r :: post)) w).1.1
  = (GetThreadTransactionByThreadID (inl pre) w).1.1
  /\ length (GetThreadTransactionByThreadID (inl (pre ++ r :: post)) w).1.1
     = length (pre ++ r :: post)
  /\ (GetThreadTransactionByThreadID (inl (pre ++ r :: post)) w).1.2
     = scan_error (default r (last post))
  /\ (GetThreadTransactionByThreadID (inl [row_7; row_8_NULL]) w).1
     = ([decoded row_7; decoded row_8_NULL],
        Some (ScanError 2 "converting NULL to string is unsupported"))
  /\ (GetThreadTransactionByThreadID (inl [row_7; row_8_NULL; row_9]) w).1
     = ([decoded row_7; decoded row_8_NULL; decoded row_9], None).
Proof.
  rewrite !GetThreadTransactionByThreadID_run. cbn [fst snd].
  split; [|split; [|split; [|split]]].
  - by rewrite fmap_app, take_app_length'; [|rewrite length_fmap].
  - by rewrite length_fmap.
  - unfold last_error. rewrite last_app_cons, last_cons.
    by destruct (last post).
  - reflexivity.
  - reflexivity.
Qed.

(** ** The dollar amount of [GetThreadAmount] *)

(** C10.  [GetThreadAmount] returns the amount of the last row, NULL read
    as 0.0, rounded to 2 decimal places: scaled by 100, rounded to an
    integer, divided by 100.  Without a row and for NULL that is 0.0; for
    12.34567 it is 12.35. *)
Theorem GetThreadAmount_rounds_to_cents
    (w : World) (rows : list (option float64)) (v : option float64) :
  (GetThreadAmount (inl (rows ++ [v])) w).1
  = (F64.div (F64.Round (F64.mul (default F64.zero v) (F64.of_Z 100)))
             (F64.of_Z 100), None)
  /\ (GetThreadAmount (inl []) w).1 = (F64.zero, None)
  /\ (GetThreadAmount (inl [None]) w).1 = (F64.zero, None)
  /\ (GetThreadAmount (inl [Some (F64.of_decimal false 1234567 5)]) w).1
     = (F64.of_decimal false 1235 2, None).
Proof.
  split; [|split; [|split]].
  - unfold GetThreadAmount. go_run. rewrite scan_all_last.
    destruct (scan_all _ _ _) as [? ?]. by destruct v.
  - reflexivity.
  - reflexivity.
  - vm_compute. reflexivity.
Qed.

(** * Further properties of the package *)

(** ** The contract of a call *)

Ltac call_solve :=
  go_run; cbv [end_of_rows];
  repeat (case_match; cbn in * |-);
  cbv [call_failed call_read one_statement no_cursor cursor_released_once
       begins rows_Close];
  cbn; repeat case_match; simplify_eq; eauto 10.

Lemma exec_failed {R} stmt fn err w :
  (exec (R:=R) stmt fn (inr err) w).1 = Some err
  /\ call_failed err w (exec (R:=R) stmt fn (inr err) w).2.
Proof. unfold exec. call_solve. Qed.

Lemma exec_read {R} stmt fn (rows : list R) w :
  (exec stmt fn (inl rows) w).1 = None
  /\ call_read w (exec stmt fn (inl rows) w).2
  /\ probed (exec stmt fn (inl rows) w).2 = probed w.
Proof. unfold exec. call_solve. Qed.

(** X1.  Each of the nine writing operations returns the error of
    [Db.Query] unchanged, after one log entry and without a cursor; on a
    cursor it returns nil, logs nothing, reads no row and releases the
    cursor once.  Either way it sends one statement and begins one
    transaction in test mode only. *)
Theorem writing_operations_contract (R : Type) :
  writes_as_contracted (SaveOrder (R:=R))
  /\ writes_as_contracted (UpdateOrder (R:=R))
  /\ writes_as_contracted (UpdateSession (R:=R))
  /\ writes_as_contracted (UpdateGlobal (R:=R))
  /\ writes_as_contracted (SaveGlobal (R:=R))
  /\ writes_as_contracted (SaveSession (R:=R))
  /\ writes_as_contracted (DeleteSession (R:=R))
  /\ writes_as_contracted (SaveThreadTransaction (R:=R))
  /\ writes_as_contracted (DeleteThreadTransactionByOrderID (R:=R)).
Proof.
  repeat split; intros [rows|err] w;
    solve [apply exec_failed | apply exec_read].
Qed.

Ltac query_error_solve op := intros w; unfold op; call_solve.

(** X2.  When [Db.Query] fails, every reading operation returns the zero
    value of its results together with that same error, writes one log
    entry that carries it, obtains no cursor and never touches the disk;
    [GetProfit], [GetProfitByThreadID] and [GetThreadAmount] return the
    0.0 of their unused NULL-safe variables. *)
Theorem reading_operations_return_query_error (err : error) :
  returns_query_error (GetSessionStatus (inr err)) "" err
  /\ returns_query_error (GetThreadTransactionCount (inr err)) 0 err
  /\ returns_query_error (GetLastOrderTransactionPrice (inr err)) F64.zero err
  /\ returns_query_error (GetLastOrderTransactionSide (inr err)) "" err
  /\ returns_query_error (GetOrderTransactionSideLastTwo (inr err)) ("", "") err
  /\ returns_query_error (GetOrderSymbol (inr err)) "" err
  /\ returns_query_error (GetThreadTransactionDistinct (inr err)) ("", "") err
  /\ returns_query_error (GetOrderTransactionPending (inr err)) Order_zero err
  /\ returns_query_error (GetThreadTransactionByPrice (inr err)) Order_zero err
  /\ returns_query_error (GetThreadTransactionByPriceHigher (inr err)) Order_zero err
  /\ returns_query_error (GetThreadLastTransaction (inr err)) Order_zero err
  /\ returns_query_error (GetOrderByOrderID (inr err)) Order_zero err
  /\ returns_query_error (GetThreadTransactiontUpmarketPriceCount (inr err)) 0 err
  /\ returns_query_error (GetOrderTransactionCount (inr err)) F64.zero err
  /\ returns_query_error (GetThreadTransactionByThreadID (inr err)) [] err
  /\ returns_query_error (GetProfitByThreadID (inr err)) (F64.zero, F64.zero) err
  /\ returns_query_error (GetProfit (inr err)) (F64.zero, F64.zero, F64.zero) err
  /\ returns_query_error (GetGlobal (inr err)) (F64.zero, F64.zero, F64.zero, 0) err
  /\ returns_query_error (GetThreadCount (inr err)) 0 err
  /\ returns_query_error (GetThreadAmount (inr err)) F64.zero err.
Proof.
  repeat apply conj.
  - query_error_solve GetSessionStatus.
  - query_error_solve GetThreadTransactionCount.
  - query_error_solve GetLastOrderTransactionPrice.
  - query_error_solve GetLastOrderTransactionSide.
  - query_error_solve GetOrderTransactionSideLastTwo.
  - query_error_solve GetOrderSymbol.
  - query_error_solve GetThreadTransactionDistinct.
  - query_error_solve GetOrderTransactionPending.
  - query_error_solve GetThreadTransactionByPrice.
  - query_error_solve GetThreadTransactionByPriceHigher.
  - query_error_solve GetThreadLastTransaction.
  - query_error_solve GetOrderByOrderID.
  - query_error_solve GetThreadTransactiontUpmarketPriceCount.
  - query_error_solve GetOrderTransactionCount.
  - query_error_solve GetThreadTransactionByThreadID.
  - query_error_solve GetProfitByThreadID.
  - query_error_solve GetProfit.
  - query_error_solve GetGlobal.
  - query_error_solve GetThreadCount.
  - query_error_solve GetThreadAmount.
Qed.

(** What the loop of [GetThreadTransactionDistinct] does to the world
    besides releasing the cursor: it probes at most one path for each row
    and changes nothing else. *)
Lemma GetThreadTransactionDistinct_rows_effects rows t s err fr :
  let out := GetThreadTransactionDistinct_rows rows t s err fr in
  logged (world out.2) = logged (world fr)
  /\ sent (world out.2) = sent (world fr)
  /\ begun (world out.2) = begun (world fr)
  /\ files (world out.2) = files (world fr)
  /\ exists paths : list string,
       probed (world out.2) = probed (world fr) ++ paths
       /\ (length paths <= length rows)%nat.
Proof.
  revert t s err fr. induction rows as [|r rows IH]; intros t s err fr.
  - cbn [GetThreadTransactionDistinct_rows]. go_run. cbv [end_of_rows].
    destruct (more_results (world fr)); repeat split;
      exists []; by rewrite app_nil_r.
  - cbn [GetThreadTransactionDistinct_rows]. go_run.
    case_match; go_step.
    + repeat split. eexists [_]. split; [done | simpl; lia].
    + match goal with
      | |- context [GetThreadTransactionDistinct_rows rows ?t' ?s' ?e' ?fr'] =>
          destruct (IH t' s' e' fr') as (-> & -> & -> & -> & paths & -> & Hlen)
      end.
      repeat split. eexists (_ :: paths). cbn [world probe probed].
      split; [by rewrite <- app_assoc | simpl; lia].
Qed.

(** The pair that the loop hands over: the one it was entered with when
    there is no row, two empty strings when every row was passed, or a
    pair whose lock file the disk does not hold. *)
Lemma GetThreadTransactionDistinct_rows_result rows t s err fr :
  let out := GetThreadTransactionDistinct_rows rows t s err fr in
  out.1.1 = (t, s) \/ out.1.1 = ("", "")
  \/ lock_file out.1.1 ∉ files (world fr).
Proof.
  revert t s err fr. induction rows as [|r rows IH]; intros t s err fr.
  - left. reflexivity.
  - right. cbn [GetThreadTransactionDistinct_rows]. go_run.
    case_match eqn:Hstat; go_step.
    + right. case_bool_decide as Hin; [done|].
      cbn [files probe] in Hin. exact Hin.
    + match goal with
      | |- context [GetThreadTransactionDistinct_rows rows ?t' ?s' ?e' ?fr'] =>
          destruct (IH t' s' e' fr') as [H|[H|H]]
      end; auto.
Qed.

Ltac read_solve op := intros rows w; unfold op; call_solve.

(** X3.  On a cursor, whatever its rows are and whether they decode or
    not, every reading operation other than [GetSessionStatus] writes no
    log entry, calls [Close] once and releases the cursor once, sends one
    statement, and begins one transaction in test mode only; none but
    [GetThreadTransactionDistinct] touches the disk. *)
Theorem reading_operations_read_and_release :
  (forall rows, reads_as_contracted (GetThreadTransactionCount (inl rows)))
  /\ (forall rows, reads_as_contracted (GetLastOrderTransactionPrice (inl rows)))
  /\ (forall rows, reads_as_contracted (GetLastOrderTransactionSide (inl rows)))
  /\ (forall rows, reads_as_contracted (GetOrderTransactionSideLastTwo (inl rows)))
  /\ (forall rows, reads_as_contracted (GetOrderSymbol (inl rows)))
  /\ (forall rows, reads_as_contracted (GetOrderTransactionPending (inl rows)))
  /\ (forall rows, reads_as_contracted (GetThreadTransactionByPrice (inl rows)))
  /\ (forall rows,
        reads_as_contracted (GetThreadTransactionByPriceHigher (inl rows)))
  /\ (forall rows, reads_as_contracted (GetThreadLastTransaction (inl rows)))
  /\ (forall rows, reads_as_contracted (GetOrderByOrderID (inl rows)))
  /\ (forall rows,
        reads_as_contracted (GetThreadTransactiontUpmarketPriceCount (inl rows)))
  /\ (forall rows, reads_as_contracted (GetOrderTransactionCount (inl rows)))
  /\ (forall rows, reads_as_contracted (GetThreadTransactionByThreadID (inl rows)))
  /\ (forall rows, reads_as_contracted (GetProfitByThreadID (inl rows)))
  /\ (forall rows, reads_as_contracted (GetProfit (inl rows)))
  /\ (forall rows, reads_as_contracted (GetGlobal (inl rows)))
  /\ (forall rows, reads_as_contracted (GetThreadCount (inl rows)))
  /\ (forall rows, reads_as_contracted (GetThreadAmount (inl rows)))
  /\ (forall rows w,
        call_read w (GetThreadTransactionDistinct (inl rows) w).2).
Proof.
  repeat apply conj.
  - read_solve GetThreadTransactionCount.
  - read_solve GetLastOrderTransactionPrice.
  - read_solve GetLastOrderTransactionSide.
  - read_solve GetOrderTransactionSideLastTwo.
  - read_solve GetOrderSymbol.
  - read_solve GetOrderTransactionPending.
  - read_solve GetThreadTransactionByPrice.
  - read_solve GetThreadTransactionByPriceHigher.
  - read_solve GetThreadLastTransaction.
  - read_solve GetOrderByOrderID.
  - read_solve GetThreadTransactiontUpmarketPriceCount.
  - read_solve GetOrderTransactionCount.
  - intros rows w. unfold GetThreadTransactionByThreadID. go_run.
    rewrite GetThreadTransactionByThreadID_rows_run by auto. call_solve.
  - read_solve GetProfitByThreadID.
  - read_solve GetProfit.
  - read_solve GetGlobal.
  - read_solve GetThreadCount.
  - read_solve GetThreadAmount.
  - intros rows w.
    pose proof (GetThreadTransactionDistinct_cursor (inl rows) w) as Hcursor.
    cbn beta iota in Hcursor. revert Hcursor.
    unfold GetThreadTransactionDistinct. go_run.
    match goal with
    | |- context [GetThreadTransactionDistinct_rows rows ?t ?s ?e ?fr] =>
        destruct (GetThreadTransactionDistinct_rows_effects rows t s e fr)
          as (Hl & Hs & Hb & _ & _);
        destruct (GetThreadTransactionDistinct_rows_cursor rows t s e fr)
          as (Hd & _);
        destruct (GetThreadTransactionDistinct_rows rows t s e fr) as [res fr']
    end.
    cbn [fst snd world deferred] in *. rewrite Hd. go_step.
    intros Hcursor. unfold call_read, one_statement, begins.
    cbn [rows_Close release count_Close sent logged begun].
    rewrite Hl, Hs, Hb. split; [|split; [|split]]; [| |done|].
    + eexists. by destruct (test_v w).
    + by destruct (test_v w).
    + by destruct (test_v w).
Qed.

(** ** The thread handed over by [GetThreadTransactionDistinct] *)

(** X10.  Whatever the rows are, NULL cells included,
    [GetThreadTransactionDistinct] never hands over a thread whose lock
    file exists: it returns two empty strings or a pair whose lock file the
    disk does not hold; and it probes the disk at most once for each row. *)
Theorem GetThreadTransactionDistinct_never_returns_locked_thread
    (rows : list (option string * option string)) (w : World) :
  ((GetThreadTransactionDistinct (inl rows) w).1.1 = ("", "")
   \/ lock_file (GetThreadTransactionDistinct (inl rows) w).1.1 ∉ files w)
  /\ exists paths : list string,
       probed (GetThreadTransactionDistinct (inl rows) w).2 = probed w ++ paths
       /\ (length paths <= length rows)%nat.
Proof.
  unfold GetThreadTransactionDistinct. go_run.
  match goal with
  | |- context [GetThreadTransactionDistinct_rows rows ?t ?s ?e ?fr] =>
      destruct (GetThreadTransactionDistinct_rows_effects rows t s e fr)
        as (_ & _ & _ & _ & paths & Hp & Hlen);
      destruct (GetThreadTransactionDistinct_rows_cursor rows t s e fr)
        as (Hd & _);
      pose proof (GetThreadTransactionDistinct_rows_result rows t s e fr) as Hr;
      destruct (GetThreadTransactionDistinct_rows rows t s e fr) as [res fr']
  end.
  cbn [fst snd world deferred] in *. rewrite Hd. go_step. split.
  - rewrite before_loop_files in Hr. destruct Hr as [H|[H|H]]; auto.
  - exists paths. cbn [rows_Close release count_Close probed].
    by rewrite Hp, before_loop_probed.
Qed.

(** ** The answer of [GetSessionStatus] *)

Lemma GetSessionStatus_rows_unflagged rows threadID err fr :
  existsb flagged rows = false ->
  (GetSessionStatus_rows rows threadID err fr).1
  = inr (last_threadID threadID rows).
Proof.
  revert threadID err. induction rows as [|r rows IH]; intros threadID err.
  - reflexivity.
  - destruct r as [[t|] [[|]|]]; simpl; try discriminate; apply IH.
Qed.

Lemma GetSessionStatus_rows_flagged pre t post threadID err fr :
  existsb flagged pre = false ->
  (GetSessionStatus_rows (pre ++ (Some t, Some true) :: post) threadID err fr).1
  = inl (t, None).
Proof.
  revert threadID err. induction pre as [|r pre IH]; intros threadID err.
  - reflexivity.
  - destruct r as [[t'|] [[|]|]]; simpl; try discriminate; apply IH.
Qed.

Lemma GetSessionStatus_rows_no_error rows threadID err fr :
  match (GetSessionStatus_rows rows threadID err fr).1 with
  | inl result => result.2 = None
  | inr _ => True
  end.
Proof.
  revert threadID err. induction rows as [|r rows IH]; intros threadID err.
  - exact I.
  - destruct r as [[t|] [[|]|]]; simpl; try apply IH. reflexivity.
Qed.

(** X4.  On a cursor [GetSessionStatus] never returns an error, not even
    when a row failed to scan.  It returns the thread of the first row
    whose status flag is true; when no row has a true flag it returns the
    thread of the last row whose thread is not NULL, not an empty
    string. *)
Theorem GetSessionStatus_answer (w : World) :
  (forall rows, (GetSessionStatus (inl rows) w).1.2 = None)
  /\ (forall pre t post,
        existsb flagged pre = false ->
        (GetSessionStatus (inl (pre ++ (Some t, Some true) :: post)) w).1
        = (t, None))
  /\ (forall rows t status,
        existsb flagged (rows ++ [(Some t, status)]) = false ->
        (GetSessionStatus (inl (rows ++ [(Some t, status)])) w).1 = (t, None))
  /\ (forall rows,
        existsb flagged rows = false ->
        (GetSessionStatus (inl rows) w).1 = (last_threadID "" rows, None)).
Proof.
  assert (forall rows,
        existsb flagged rows = false ->
        (GetSessionStatus (inl rows) w).1 = (last_threadID "" rows, None))
    as Hlast.
  { intros rows Hrows. unfold GetSessionStatus. go_run.
    by rewrite (GetSessionStatus_rows_unflagged _ _ _ _ Hrows). }
  split; [|split; [|split]]; [| | |exact Hlast].
  - intros rows. unfold GetSessionStatus. go_run.
    match goal with
    | |- context [GetSessionStatus_rows rows ?t ?e ?fr] =>
        pose proof (GetSessionStatus_rows_no_error rows t e fr) as H;
        destruct (GetSessionStatus_rows rows t e fr) as [[res|t'] fr']
    end; [exact H | reflexivity].
  - intros pre t post Hpre. unfold GetSessionStatus. go_run.
    by rewrite (GetSessionStatus_rows_flagged _ _ _ _ _ _ Hpre).
  - intros rows t status Hrows. rewrite (Hlast _ Hrows).
    unfold last_threadID. by rewrite foldl_app.
Qed.

Lemma GetSessionStatus_answer_witness :
  (GetSessionStatus (inl [(Some "t1", Some false); (None, Some true);
                          (Some "t2", None)]) world_init).1
  = ("t2", None).
Proof.
  apply (proj1 (proj2 (proj2 (GetSessionStatus_answer world_init)))
           [(Some "t1", Some false); (None, Some true)] "t2" None).
  reflexivity.
Defined.

(** X5.  [GetSessionStatus] leaves its cursor open exactly when some row
    has a thread and a true status flag, wherever the row stands; in
    every other case it calls [Close] once and releases the cursor
    once. *)
Theorem GetSessionStatus_leaves_cursor_open_exactly_on_a_flag
    (rows : list (option string * option bool)) (w : World) :
  if existsb flagged rows
  then cursor_left_open w (GetSessionStatus (inl rows) w).2
  else cursor_released_once w (GetSessionStatus (inl rows) w).2.
Proof. apply GetSessionStatus_cursor. Qed.

(** ** The last row *)

Ltac last_row_solve op :=
  intros rows v w; unfold op; go_run; rewrite !scan_all_last;
  destruct (scan_all _ rows _) as [? ?]; by split.

(** X6.  A reading operation with one plain column returns its last row:
    a value in the last row is returned with a nil error even when rows
    before it failed to scan, and a NULL in the last row returns the
    value left by the rows before it together with the scan error. *)
Theorem one_column_operations_return_the_last_row :
  last_row_wins GetThreadTransactionCount "int"
  /\ last_row_wins GetLastOrderTransactionPrice "float64"
  /\ last_row_wins GetLastOrderTransactionSide "string"
  /\ last_row_wins GetOrderSymbol "string"
  /\ last_row_wins GetThreadTransactiontUpmarketPriceCount "int"
  /\ last_row_wins GetOrderTransactionCount "float64"
  /\ last_row_wins GetThreadCount "int".
Proof.
  repeat apply conj.
  - last_row_solve GetThreadTransactionCount.
  - last_row_solve GetLastOrderTransactionPrice.
  - last_row_solve GetLastOrderTransactionSide.
  - last_row_solve GetOrderSymbol.
  - last_row_solve GetThreadTransactiontUpmarketPriceCount.
  - last_row_solve GetOrderTransactionCount.
  - last_row_solve GetThreadCount.
Qed.

Lemma scan_all_no_error {R D} (Scan : R -> D -> D * option error) rows dest :
  (forall r d, (Scan r d).2 = None) ->
  (scan_all Scan rows (dest, None)).2 = None.
Proof.
  intros HScan. induction rows as [|r rows IH] using rev_ind; [done|].
  by rewrite scan_all_last.
Qed.

Lemma Scan1_NullFloat64_no_error r d : (Scan1 NullFloat64_Scan r d).2 = None.
Proof. by destruct r. Qed.

Lemma Scan2_NullFloat64_no_error r d :
  (Scan2 NullFloat64_Scan NullFloat64_Scan r d).2 = None.
Proof. by destruct r as [[?|] [?|]], d. Qed.

(** X7.  [GetProfitByThreadID] and [GetThreadAmount], which scan into
    [sql.NullFloat64], return a nil error for every result set; a NULL in
    the last row gives 0.0 also after rows that held a value. *)
Theorem NULL_safe_operations_never_fail
    (rows : list (option float64 * option float64))
    (amounts : list (option float64)) (w : World) :
  (GetProfitByThreadID (inl rows) w).1.2 = None
  /\ (GetThreadAmount (inl amounts) w).1.2 = None
  /\ (GetProfitByThreadID (inl (rows ++ [(None, None)])) w).1
     = (F64.zero, F64.zero, None)
  /\ (GetThreadAmount (inl (amounts ++ [None])) w).1 = (F64.zero, None).
Proof.
  split; [|split; [|split]].
  - unfold GetProfitByThreadID. go_run.
    pose proof (scan_all_no_error _ rows (NullFloat64_zero, NullFloat64_zero)
                  Scan2_NullFloat64_no_error) as H.
    by destruct (scan_all _ rows _) as [[? ?] ?].
  - unfold GetThreadAmount. go_run.
    pose proof (scan_all_no_error _ amounts NullFloat64_zero
                  Scan1_NullFloat64_no_error) as H.
    by destruct (scan_all _ amounts _) as [? ?].
  - unfold GetProfitByThreadID. go_run. rewrite scan_all_last.
    by destruct (scan_all _ rows _) as [[? ?] ?].
  - unfold GetThreadAmount. go_run. rewrite scan_all_last.
    by destruct (scan_all _ amounts _) as [? ?].
Qed.

(** ** Rows that stop in the middle of a scan *)

Ltac torn_solve op :=
  unfold op; go_run; rewrite !scan_all_last;
  destruct (scan_all _ _ _) as [[] ?]; cbn; by repeat split.

(** X8.  The operations that scan a transaction or an order into one
    [types.Order] keep what an interrupted scan has already stored: after
    a last row whose price is NULL the order holds the columns before the
    price from that row and every other field from the rows before it,
    and the call returns that mixed order with the scan error. *)
Theorem NULL_price_returns_a_mixed_order
    (w : World)
    (rows : list (option float64 * option Z * option float64
                  * option float64 * option Z))
    (orders : list (option Z * option float64 * option float64
                    * option float64 * option Z))
    (c : float64) (id : Z) (e q : option float64) (t : option Z) :
  (GetThreadTransactionByPrice
     (inl (rows ++ [(Some c, Some id, None, e, t)])) w).1
  = (with_quote_and_id (GetThreadTransactionByPrice (inl rows) w).1.1 c id,
     Some (ScanError 2 "converting NULL to float64 is unsupported"))
  /\ (GetThreadTransactionByPriceHigher
        (inl (rows ++ [(Some c, Some id, None, e, t)])) w).1
     = (with_quote_and_id
          (GetThreadTransactionByPriceHigher (inl rows) w).1.1 c id,
        Some (ScanError 2 "converting NULL to float64 is unsupported"))
  /\ (GetThreadLastTransaction
        (inl (rows ++ [(Some c, Some id, None, e, t)])) w).1
     = (with_quote_and_id (GetThreadLastTransaction (inl rows) w).1.1 c id,
        Some (ScanError 2 "converting NULL to float64 is unsupported"))
  /\ (GetOrderByOrderID (inl (orders ++ [(Some id, None, e, q, t)])) w).1
     = (with_id (GetOrderByOrderID (inl orders) w).1.1 id,
        Some (ScanError 1 "converting NULL to float64 is unsupported")).
Proof.
  split; [|split; [|split]].
  - torn_solve GetThreadTransactionByPrice.
  - torn_solve GetThreadTransactionByPriceHigher.
  - torn_solve GetThreadLastTransaction.
  - torn_solve GetOrderByOrderID.
Qed.

(** X9.  A last row in which every column holds a value decides the
    result alone: the four operations that read a transaction or an order
    return its five columns as the store gave them, neither rounded nor
    scaled, with a nil error, also after rows that failed to scan. *)
Theorem complete_last_row_is_returned_unchanged
    (w : World)
    (rows : list (option float64 * option Z * option float64
                  * option float64 * option Z))
    (orders : list (option Z * option float64 * option float64
                    * option float64 * option Z))
    (c : float64) (id : Z) (p e : float64) (t : Z) :
  (holds_columns
     (GetThreadTransactionByPrice
        (inl (rows ++ [(Some c, Some id, Some p, Some e, Some t)])) w).1.1
     c id p e t
   /\ (GetThreadTransactionByPrice
         (inl (rows ++ [(Some c, Some id, Some p, Some e, Some t)])) w).1.2
      = None)
  /\ (holds_columns
        (GetThreadTransactionByPriceHigher
           (inl (rows ++ [(Some c, Some id, Some p, Some e, Some t)])) w).1.1
        c id p e t
      /\ (GetThreadTransactionByPriceHigher
            (inl (rows ++ [(Some c, Some id, Some p, Some e, Some t)])) w).1.2
         = None)
  /\ (holds_columns
        (GetThreadLastTransaction
           (inl (rows ++ [(Some c, Some id, Some p, Some e, Some t)])) w).1.1
        c id p e t
      /\ (GetThreadLastTransaction
            (inl (rows ++ [(Some c, Some id, Some p, Some e, Some t)])) w).1.2
         = None)
  /\ (holds_columns
        (GetOrderByOrderID
           (inl (orders ++ [(Some id, Some p, Some e, Some c, Some t)])) w).1.1
        c id p e t
      /\ (GetOrderByOrderID
            (inl (orders ++ [(Some id, Some p, Some e, Some c, Some t)])) w).1.2
         = None).
Proof.
  split; [|split; [|split]].
  - torn_solve GetThreadTransactionByPrice.
  - torn_solve GetThreadTransactionByPriceHigher.
  - torn_solve GetThreadLastTransaction.
  - torn_solve GetOrderByOrderID.
Qed.

(** X11.  The operations that scan several columns into separate results
    behave alike: after a last row that holds a NULL the results before
    the NULL come from that row, the results from the NULL on are those
    of the rows before it, and the scan error names the column of the
    NULL. *)
Theorem NULL_column_keeps_the_results_of_earlier_rows
    (w : World)
    (profits : list (option float64 * option float64 * option float64))
    (globals : list (option float64 * option float64 * option float64
                     * option Z))
    (sides : list (option string * option string))
    (pending : list (option Z * option string))
    (a b : float64) (c : option float64) (t : option Z) (side1 : string)
    (id : Z) :
  (GetProfit (inl (profits ++ [(Some a, None, c)])) w).1
  = (a, (GetProfit (inl profits) w).1.1.1.2, (GetProfit (inl profits) w).1.1.2,
     Some (ScanError 1 "converting NULL to float64 is unsupported"))
  /\ (GetGlobal (inl (globals ++ [(Some a, Some b, None, t)])) w).1
     = (a, b, (GetGlobal (inl globals) w).1.1.1.2,
        (GetGlobal (inl globals) w).1.1.2,
        Some (ScanError 2 "converting NULL to float64 is unsupported"))
  /\ (GetOrderTransactionSideLastTwo (inl (sides ++ [(Some side1, None)])) w).1
     = (side1, (GetOrderTransactionSideLastTwo (inl sides) w).1.1.2,
        Some (ScanError 1 "converting NULL to string is unsupported"))
  /\ (GetOrderTransactionPending (inl (pending ++ [(Some id, None)])) w).1
     = (with_id (GetOrderTransactionPending (inl pending) w).1.1 id,
        Some (ScanError 1 "converting NULL to string is unsupported")).
Proof.
  split; [|split; [|split]].
  - unfold GetProfit. go_run. rewrite !scan_all_last.
    by destruct (scan_all _ _ _) as [[[? ?] ?] ?].
  - unfold GetGlobal. go_run. rewrite !scan_all_last.
    by destruct (scan_all _ _ _) as [[[[? ?] ?] ?] ?].
  - unfold GetOrderTransactionSideLastTwo. go_run. rewrite !scan_all_last.
    by destruct (scan_all _ _ _) as [[? ?] ?].
  - torn_solve GetOrderTransactionPending.
Qed.

(** X12.  [GetGlobal] returns the four columns of its last row as the
    store gave them: the percentage is not multiplied by 100 as it is in
    [GetProfit]; [GetOrderTransactionSideLastTwo] and
    [GetOrderTransactionPending] return the two columns of their last
    row. *)
Theorem GetGlobal_returns_the_stored_percentage
    (w : World)
    (globals : list (option float64 * option float64 * option float64
                     * option Z))
    (sides : list (option string * option string))
    (pending : list (option Z * option string))
    (profit profitNet profitPct : float64) (transactTime : Z)
    (side1 side2 symbol : string) (id : Z) :
  (GetGlobal (inl (globals ++ [(Some profit, Some profitNet, Some profitPct,
                                Some transactTime)])) w).1
  = (profit, profitNet, profitPct, transactTime, None)
  /\ (GetOrderTransactionSideLastTwo
        (inl (sides ++ [(Some side1, Some side2)])) w).1
     = (side1, side2, None)
  /\ (OrderID (GetOrderTransactionPending
                 (inl (pending ++ [(Some id, Some symbol)])) w).1.1 = id
      /\ Symbol (GetOrderTransactionPending
                   (inl (pending ++ [(Some id, Some symbol)])) w).1.1 = symbol
      /\ (GetOrderTransactionPending
            (inl (pending ++ [(Some id, Some symbol)])) w).1.2 = None).
Proof.
  split; [|split].
  - unfold GetGlobal. go_run. rewrite !scan_all_last.
    by destruct (scan_all _ _ _) as [[[[? ?] ?] ?] ?].
  - unfold GetOrderTransactionSideLastTwo. go_run. rewrite !scan_all_last.
    by destruct (scan_all _ _ _) as [[? ?] ?].
  - torn_solve GetOrderTransactionPending.
Qed.

(** X13.  In [GetThreadTransactionByThreadID] the scan targets are
    declared inside the loop, so a row that stops at a NULL adds an order
    built from zero values, never from the row before: a NULL cumulative
    quote quantity gives the row's order id with three amounts of 0.0, a
    NULL order id gives an order of zero values only; the orders of the
    rows before stay as they were. *)
Theorem GetThreadTransactionByThreadID_NULL_row_adds_a_zero_order
    (w : World)
    (pre : list (option Z * option string * option string * option string))
    (id : Z) (c p e : option string) :
  (GetThreadTransactionByThreadID (inl (pre ++ [(Some id, None, p, e)])) w).1
  = ((GetThreadTransactionByThreadID (inl pre) w).1.1
       ++ [mkOrder "" F64.zero F64.zero id F64.zero "" "" "" 0],
     Some (ScanError 1 "converting NULL to string is unsupported"))
  /\ (GetThreadTransactionByThreadID (inl (pre ++ [(None, c, p, e)])) w).1
     = ((GetThreadTransactionByThreadID (inl pre) w).1.1 ++ [Order_zero],
        Some (ScanError 0 "converting NULL to int64 is unsupported")).
Proof.
  rewrite !GetThreadTransactionByThreadID_run. cbn [fst snd].
  unfold last_error. rewrite !fmap_app, !last_snoc. by split.
Qed.

(** ** A NULL thread in [GetThreadTransactionDistinct] *)

Lemma GetThreadTransactionDistinct_rows_NULL pre s post err fr :
  Forall (fun r => lock_file r ∈ files (world fr)) pre ->
  ".lock" ∉ files (world fr) ->
  (GetThreadTransactionDistinct_rows ((present <$> pre) ++ (None, s) :: post)
                                     "" "" err fr).1
  = ("", "", Some (ScanError 0 "converting NULL to string is unsupported")).
Proof.
  revert err fr. induction pre as [|[t1 s1] pre IH]; intros err fr Hpre Hlock.
  - cbn [app fmap list_fmap GetThreadTransactionDistinct_rows]. go_run.
    cbn [files probe]. by rewrite bool_decide_false.
  - apply Forall_cons in Hpre as [Hlock1 Hpre].
    cbn [app fmap list_fmap GetThreadTransactionDistinct_rows]. go_run.
    cbn [files probe]. unfold lock_file in Hlock1. cbn [fst] in Hlock1.
    rewrite bool_decide_true by done.
    by apply IH.
Qed.

(** X14.  A row whose thread is NULL ends the scan of
    [GetThreadTransactionDistinct] when the disk holds no file named
    [.lock]: the scan leaves the thread empty, the probe is for [.lock],
    and the call returns two empty strings with the scan error without
    reading the rows after it. *)
Theorem GetThreadTransactionDistinct_stops_at_a_NULL_thread
    (w : World) (pre : list (string * string)) (s : option string)
    (post : list (option string * option string)) :
  Forall (fun r => lock_file r ∈ files w) pre ->
  ".lock" ∉ files w ->
  (GetThreadTransactionDistinct
     (inl ((present <$> pre) ++ (None, s) :: post)) w).1
  = ("", "", Some (ScanError 0 "converting NULL to string is unsupported")).
Proof.
  intros Hpre Hlock. unfold GetThreadTransactionDistinct. go_run.
  match goal with
  | |- context [GetThreadTransactionDistinct_rows ?rows ?t ?s' ?e ?fr] =>
      pose proof (GetThreadTransactionDistinct_rows_NULL pre s post e fr) as H;
      destruct (GetThreadTransactionDistinct_rows rows t s' e fr) as [res fr']
  end.
  cbn [fst snd world] in *. rewrite before_loop_files in H. by apply H.
Qed.

Lemma GetThreadTransactionDistinct_stops_at_a_NULL_thread_witness :
  (GetThreadTransactionDistinct
     (inl [(Some "T1", Some "S1"); (None, Some "S2"); (Some "T3", Some "S3")])
     world_T1).1
  = ("", "", Some (ScanError 0 "converting NULL to string is unsupported")).
Proof.
  apply (GetThreadTransactionDistinct_stops_at_a_NULL_thread world_T1
           [("T1", "S1")] (Some "S2") [(Some "T3", Some "S3")]).
  - apply Forall_singleton. vm_compute. reflexivity.
  - vm_compute. discriminate.
Defined.

(** ** The transports of [DBInit] *)

Ltac init_run :=
  cbv [InitTCPConnectionPool InitSocketConnectionPool MustGetenv os_LookupEnv
       mbind process_bind mret process_ret sql.Open].

(** X15.  With a non-empty [DB_TCP_HOST], [DBInit] takes the TCP
    transport, and [InitTCPConnectionPool] gives the driver the
    data-source name [user:pass@tcp(host:port)/dbname?parseTime=true]; the
    pool of an accepted name is limited to 5 idle and 7 open connections,
    and a refused name ends the process with code 1. *)
Theorem InitTCPConnectionPool_dsn
    (OpenConnector : string -> option error) (env : gmap string string)
    (dbUser dbPwd dbTCPHost dbPort dbName : string) :
  env !! "DB_USER" = Some dbUser ->
  env !! "DB_PASS" = Some dbPwd ->
  env !! "DB_TCP_HOST" = Some dbTCPHost ->
  env !! "DB_PORT" = Some dbPort ->
  env !! "DB_NAME" = Some dbName ->
  dbTCPHost <> "" ->
  let dsn := dbUser +:+ ":" +:+ dbPwd +:+ "@tcp(" +:+ dbTCPHost +:+ ":"
               +:+ dbPort +:+ ")/" +:+ dbName +:+ "?parseTime=true" in
  InitTCPConnectionPool OpenConnector env
  = match OpenConnector dsn with
    | Some err => Running (None, Some (OpenError err))
    | None => Running (Some (sql.mkDB dsn 5 7 1800), None)
    end
  /\ DBInit OpenConnector env
     = match OpenConnector dsn with
       | Some err => ([OpenError err], Exited 1)
       | None => ([], Running (Some (sql.mkDB dsn 5 7 1800)))
       end.
Proof.
  intros Huser Hpwd Hhost Hport Hname Hne dsn.
  assert (InitTCPConnectionPool OpenConnector env
          = match OpenConnector dsn with
            | Some err => Running (None, Some (OpenError err))
            | None => Running (Some (sql.mkDB dsn 5 7 1800), None)
            end) as Hinit.
  { init_run. rewrite Huser, Hpwd, Hhost, Hport, Hname.
    fold dsn. by destruct (OpenConnector dsn). }
  split; [exact Hinit|].
  unfold DBInit, os_Getenv. rewrite Hhost. cbv [default from_option id].
  apply String.eqb_neq in Hne. rewrite Hne, Hinit.
  by destruct (OpenConnector dsn).
Qed.

Lemma InitTCPConnectionPool_dsn_witness :
  DBInit accept_all env_compose
  = ([], Running (Some (sql.mkDB
       "root:password@tcp(cryptopump_db:3306)/cryptopump?parseTime=true"
       5 7 1800))).
Proof.
  apply (InitTCPConnectionPool_dsn accept_all env_compose
           "root" "password" "cryptopump_db" "3306" "cryptopump");
    solve [reflexivity | discriminate].
Defined.

(** X16.  [DBInit] takes the socket transport also when [DB_TCP_HOST] is
    set to the empty string, and with [DB_SOCKET_DIR] set the path inside
    [unix(...)] is a slash, the directory as it is written, a slash and
    the instance-connection identifier: a directory written without a
    leading slash gives a path with one. *)
Theorem InitSocketConnectionPool_dsn_with_socket_dir
    (OpenConnector : string -> option error) (env : gmap string string)
    (dbUser dbPwd instanceConnectionName dbName socketDir : string) :
  env !! "DB_USER" = Some dbUser ->
  env !! "DB_PASS" = Some dbPwd ->
  env !! "INSTANCE_CONNECTION_NAME" = Some instanceConnectionName ->
  env !! "DB_NAME" = Some dbName ->
  env !! "DB_SOCKET_DIR" = Some socketDir ->
  os_Getenv env "DB_TCP_HOST" = "" ->
  let dsn := dbUser +:+ ":" +:+ dbPwd +:+ "@unix(/" +:+ socketDir +:+ "/"
               +:+ instanceConnectionName +:+ ")/" +:+ dbName
               +:+ "?parseTime=true" in
  InitSocketConnectionPool OpenConnector env
  = match OpenConnector dsn with
    | Some err => Running (None, Some (OpenError err))
    | None => Running (Some (sql.mkDB dsn 5 7 1800), None)
    end
  /\ DBInit OpenConnector env
     = match OpenConnector dsn with
       | Some err => ([OpenError err], Exited 1)
       | None => ([], Running (Some (sql.mkDB dsn 5 7 1800)))
       end.
Proof.
  intros Huser Hpwd Hinst Hname Hdir Htcp dsn.
  assert (InitSocketConnectionPool OpenConnector env
          = match OpenConnector dsn with
            | Some err => Running (None, Some (OpenError err))
            | None => Running (Some (sql.mkDB dsn 5 7 1800), None)
            end) as Hinit.
  { init_run. rewrite Huser, Hpwd, Hinst, Hname, Hdir.
    fold dsn. by destruct (OpenConnector dsn). }
  split; [exact Hinit|].
  unfold DBInit. rewrite Htcp. cbn [String.eqb]. rewrite Hinit.
  by destruct (OpenConnector dsn).
Qed.

Lemma InitSocketConnectionPool_dsn_with_socket_dir_witness :
  DBInit accept_all env_socket_dir
  = ([], Running (Some (sql.mkDB
       "user:pass@unix(/cloudsql/instance)/dbname?parseTime=true" 5 7 1800))).
Proof.
  apply (InitSocketConnectionPool_dsn_with_socket_dir accept_all env_socket_dir
           "user" "pass" "instance" "dbname" "cloudsql"); reflexivity.
Defined.

Lemma pool_outcomes (OpenConnector : string -> option error)
    (env : gmap string string) :
  let outcome r :=
    (exists dsn, r = Running (Some (sql.mkDB dsn 5 7 1800), None))
    \/ (exists err, r = Running (None, Some (OpenError err)))
    \/ r = Aborted in
  outcome (InitTCPConnectionPool OpenConnector env)
  /\ outcome (InitSocketConnectionPool OpenConnector env).
Proof.
  split; init_run; repeat case_match; simplify_eq; eauto.
Qed.

(** X17.  [DBInit] never hands a nil pool to its caller.  It returns a
    pool limited to 5 idle and 7 open connections and logs nothing; or the
    driver refused the data-source name, and then the error is logged once,
    wrapped as [sql.Open: ...], before the process ends with code 1; or a
    required variable is missing and the process is aborted. *)
Theorem DBInit_never_returns_a_nil_pool
    (OpenConnector : string -> option error) (env : gmap string string) :
  (exists db : sql.DB,
      DBInit OpenConnector env = ([], Running (Some db))
      /\ sql.maxIdleCount db = 5 /\ sql.maxOpen db = 7)
  \/ (exists err : error,
        DBInit OpenConnector env = ([OpenError err], Exited 1))
  \/ DBInit OpenConnector env = ([], Aborted).
Proof.
  destruct (pool_outcomes OpenConnector env) as [Htcp Hsocket].
  unfold DBInit. destruct (String.eqb _ _).
  - destruct Hsocket as [[dsn ->]|[[err ->]| ->]]; eauto 10.
  - destruct Htcp as [[dsn ->]|[[err ->]| ->]]; eauto 10.
Qed.

(** X18.  Pool construction is aborted exactly when a variable that the
    transport requires is missing, and then the driver is not consulted:
    [DB_USER], [DB_PASS], [DB_TCP_HOST], [DB_PORT] and [DB_NAME] for TCP,
    [DB_USER], [DB_PASS], [INSTANCE_CONNECTION_NAME] and [DB_NAME] for the
    socket, for which [DB_SOCKET_DIR] is never required. *)
Theorem pool_construction_aborts_exactly_on_a_missing_variable
    (OpenConnector : string -> option error) (env : gmap string string) :
  (InitTCPConnectionPool OpenConnector env = Aborted
   <-> env !! "DB_USER" = None \/ env !! "DB_PASS" = None
       \/ env !! "DB_TCP_HOST" = None \/ env !! "DB_PORT" = None
       \/ env !! "DB_NAME" = None)
  /\ (InitSocketConnectionPool OpenConnector env = Aborted
      <-> env !! "DB_USER" = None \/ env !! "DB_PASS" = None
          \/ env !! "INSTANCE_CONNECTION_NAME" = None
          \/ env !! "DB_NAME" = None).
Proof.
  split; init_run; repeat case_match; simplify_eq;
    split; intros H; try discriminate; auto 10;
    repeat destruct H as [H|H]; congruence.
Qed.

(** ** The orders of [GetThreadTransactionByThreadID], one for each row *)

(** X19.  [GetThreadTransactionByThreadID] returns its orders in the
    order in which the rows arrive: the order at a position is decoded
    from the row at that position alone, whatever the other rows hold. *)
Theorem GetThreadTransactionByThreadID_keeps_the_order_of_the_rows
    (w : World)
    (rows : list (option Z * option string * option string * option string))
    (i : nat) (r : option Z * option string * option string * option string) :
  rows !! i = Some r ->
  (GetThreadTransactionByThreadID (inl rows) w).1.1 !! i
  = Some (decode_transaction r Order_zero).1.
Proof.
  intros Hi. rewrite GetThreadTransactionByThreadID_run. cbn [fst].
  by rewrite list_lookup_fmap, Hi.
Qed.

Lemma GetThreadTransactionByThreadID_keeps_the_order_of_the_rows_witness :
  (GetThreadTransactionByThreadID (inl [row_7; row_8_NULL; row_9]) world_test).1.1
    !! 2%nat
  = Some (mkOrder "" (F64.of_Z 3) (F64.of_Z 5) 9 (F64.of_Z 4) "" "" "" 0).
Proof.
  apply (GetThreadTransactionByThreadID_keeps_the_order_of_the_rows world_test
           [row_7; row_8_NULL; row_9] 2 row_9).
  reflexivity.
Defined.
